(** * PsychHID 'SetReport': sending a HID report

    A shallow embedding of [PSYCHHIDSetReport]
    (Source/Common/PsychHID/PsychHIDSetReport.c) and the properties of its
    report construction, dispatch and error normalisation.

    The embedding starts where the C function has its four arguments in
    hand: [deviceIndex], [reportType] and [reportID] are C [int]s, taken
    here as integers, and argument 4 is an array of bytes owned by the
    interpreter, addressed by [reportBuffer] and counted by [reportSize].
    Both language variants of the argument code end there: whatever the
    element type of the array, [reportBuffer] points at its bytes and
    [reportSize], an [int], receives their number: the number itself up
    to [INT_MAX], and its low 32 bits read as a signed number beyond, as
    on the two's complement machines the toolbox is built for. Help output
    and the checks on the number of arguments come before that point and
    are not part of it.

    The function writes into the caller's array and into a static array
    that lives across calls, calls into the HID transport, and may leave
    through the interpreter's error exit. The state therefore holds both
    arrays, the variable [AInScanStart] and the sequence of calls made so
    far; a call is a function from state to state and outcome. *)

From Stdlib Require Import ZArith Strings.String Init.Byte.
From stdpp Require Import base tactics option list.

Local Open Scope Z_scope.

(** ** Build configuration *)

(** [PSYCH_SYSTEM] selects one of the two transport branches when the file
    is compiled. *)
Inductive System := PSYCH_OSX | PSYCH_LINUX | PSYCH_WINDOWS.

Global Instance System_eq_dec : EqDecision System.
Proof. solve_decision. Defined.

(** What PsychHID.h and the platform fix for this file: the system, the
    bound [MAXREPORTSIZE] (a size, so a natural number: it dimensions
    [scratchBuffer[MAXREPORTSIZE+1]]), and the representation of C's
    [double], which this file only stores and never computes with. *)
Class Build := {
  PSYCH_SYSTEM : System;
  MAXREPORTSIZE : nat;
  double : Type
}.

(** ** Data *)

(** Conversion of an integer to [unsigned char], and back to [int]. *)
Definition uchar (z : Z) : byte :=
  default Byte.x00 (Byte.of_N (Z.to_N (z mod 256))).

Definition int_of_uchar (b : byte) : Z := Z.of_N (Byte.to_N b).

(** Conversion to [int] (32 bits, two's complement): what is left of a
    number when it is stored in an [int] that cannot hold it. *)
Definition INT_MAX : Z := 2147483647.

Definition to_int (z : Z) : Z :=
  (z + 2147483648) mod 4294967296 - 2147483648.

(** Opaque device handles ([hid_device*], [IOHIDDeviceInterface122**]) are
    addresses; [NULL] is address 0. *)
Definition handle := N.
Definition NULL : handle := 0%N.

(** The part of a device record this function reads. *)
Record recDevice := { interface : handle }.

Inductive PsychError := PsychError_none | PsychError_user.

(** The ways the call is left without returning to its caller. *)
Inductive Exit :=
| ErrorExitMsg (e : PsychError) (msg : string)  (* PsychErrorExitMsg(e, msg) *)
| PrintfExit (msg : string)                     (* PrintfExit(msg) *)
| ExitFrom (callee : string).                   (* an abort raised inside a callee *)

(** The struct returned to the interpreter: fields "n", "name" and
    "description". [n] is [(double) error]; every status this function
    produces is an [int], for which that conversion is exact, so the field
    is kept as the integer. *)
Record Err := { n : Z; name : string; description : string }.

(** The two arrays the function addresses. *)
Inductive Object := ArgArray | ScratchArray.

Record pointer := Ptr { obj : Object; off : nat }.

(** What the function does that can be observed from outside, in order. *)
Inductive Event :=
| Printf (fmt : string) (args : list Z)
| SetReport (iface : handle) (type id : Z) (data : list byte)
            (size timeoutMS : Z)
| HidWrite (dev : handle) (data : list byte) (length : Z)
| HidSendFeatureReport (dev : handle) (data : list byte) (length : Z)
| GetPrecisionTimerSeconds
| HIDErrors (dev : handle) (error : Z).

Section SetReport.
Context `{B : Build}.

(** ** Collaborators

    Functions this file calls and does not define. Each is taken as
    given: a lookup may abort ([None]) or hand back [NULL], a transport
    call may return any status. *)
Class Collaborators := {
  (* PsychHIDVerifyInit(): [false] when it aborts *)
  PsychHIDVerifyInit_ok : bool;
  (* aborts on an index that names no device *)
  PsychHIDGetDeviceRecordPtrFromIndex : Z -> option recDevice;
  (* may return NULL *)
  PsychHIDGetDeviceInterfacePtrFromIndex : Z -> handle;
  (* the setReport entry of the interface: (type, id, buf, size, timeout) *)
  setReport : handle -> Z -> Z -> list byte -> Z -> Z -> Z;
  hid_write : handle -> list byte -> Z -> Z;
  hid_send_feature_report : handle -> list byte -> Z -> Z;
  (* the clock reading PsychGetPrecisionTimerSeconds stores *)
  PsychGetPrecisionTimerSeconds : double;
  (* PsychHIDErrors(dev, error, &name, &description) *)
  PsychHIDErrors : handle -> Z -> string * string
}.

Context `{C : Collaborators}.

(** ** State *)

Record World := {
  argBuffer : list byte;      (* the interpreter's array behind argument 4 *)
  scratchBuffer : list byte;  (* static unsigned char scratchBuffer[MAXREPORTSIZE+1] *)
  AInScanStart : double;      (* extern double AInScanStart *)
  trace : list Event          (* oldest event first *)
}.

Definition bytes_of (w : World) (o : Object) : list byte :=
  match o with
  | ArgArray => argBuffer w
  | ScratchArray => scratchBuffer w
  end.

Definition set_bytes (w : World) (o : Object) (l : list byte) : World :=
  match o with
  | ArgArray =>
      {| argBuffer := l; scratchBuffer := scratchBuffer w;
         AInScanStart := AInScanStart w; trace := trace w |}
  | ScratchArray =>
      {| argBuffer := argBuffer w; scratchBuffer := l;
         AInScanStart := AInScanStart w; trace := trace w |}
  end.

Definition log (e : Event) (w : World) : World :=
  {| argBuffer := argBuffer w; scratchBuffer := scratchBuffer w;
     AInScanStart := AInScanStart w; trace := trace w ++ [e] |}.

(** ** The monad of the function body: state, early exit, and a fault
    for an access outside an array (undefined in C). The state at an
    exit is kept: what was written before it stays written. *)
Inductive Outcome (A : Type) :=
| Returned (a : A)
| Exited (x : Exit)
| Fault.
Global Arguments Returned {A} a.
Global Arguments Exited {A} x.
Global Arguments Fault {A}.

Definition M (A : Type) : Type := World -> World * Outcome A.

Global Instance M_ret : MRet M := fun A a w => (w, Returned a).

Global Instance M_bind : MBind M := fun A B f m w =>
  match m w with
  | (w', Returned a) => f a w'
  | (w', Exited x) => (w', Exited x)
  | (w', Fault) => (w', Fault)
  end.

Definition exit {A} (x : Exit) : M A := fun w => (w, Exited x).
Definition fault {A} : M A := fun w => (w, Fault).
Definition emit (e : Event) : M unit := fun w => (log e w, Returned tt).
Definition when (b : bool) (m : M unit) : M unit :=
  if b then m else mret tt.

(** *** Memory *)

(** [n] bytes starting at [p], as a callee given [p] and [n] reads them. *)
Definition read (p : pointer) (n : nat) : M (list byte) := fun w =>
  let l := bytes_of w (obj p) in
  if decide (off p + n <= length l)%nat
  then (w, Returned (take n (drop (off p) l)))
  else (w, Fault).

Definition write (p : pointer) (bs : list byte) : M unit := fun w =>
  let l := bytes_of w (obj p) in
  if decide (off p + length bs <= length l)%nat
  then (set_bytes w (obj p)
          (take (off p) l ++ bs ++ drop (off p + length bs) l), Returned tt)
  else (w, Fault).

(* p[i] *)
Definition load (p : pointer) (i : nat) : M byte :=
  bs ← read (Ptr (obj p) (off p + i)) 1;
  match bs with
  | b :: _ => mret b
  | [] => fault
  end.

(* p[i] = b *)
Definition store (p : pointer) (i : nat) (b : byte) : M unit :=
  write (Ptr (obj p) (off p + i)) [b].

Definition memcpy (dst src : pointer) (n : nat) : M unit :=
  bs ← read src n; write dst bs.

(** *** Calls *)

Definition PsychErrorExitMsg {A} (e : PsychError) (msg : string) : M A :=
  exit (ErrorExitMsg e msg).

Definition call_PsychHIDVerifyInit : M unit :=
  if PsychHIDVerifyInit_ok then mret tt else exit (ExitFrom "PsychHIDVerifyInit").

Definition call_PsychHIDGetDeviceRecordPtrFromIndex (deviceIndex : Z)
  : M recDevice :=
  match PsychHIDGetDeviceRecordPtrFromIndex deviceIndex with
  | Some d => mret d
  | None => exit (ExitFrom "PsychHIDGetDeviceRecordPtrFromIndex")
  end.

Definition printf (fmt : string) (args : list Z) : M unit :=
  emit (Printf fmt args).

Definition call_setReport (iface : handle) (type id : Z) (p : pointer)
    (size timeoutMS : Z) : M Z :=
  data ← read p (Z.to_nat size);
  emit (SetReport iface type id data size timeoutMS);;
  mret (setReport iface type id data size timeoutMS).

Definition call_hid_write (dev : handle) (p : pointer) (length : Z) : M Z :=
  data ← read p (Z.to_nat length);
  emit (HidWrite dev data length);;
  mret (hid_write dev data length).

Definition call_hid_send_feature_report (dev : handle) (p : pointer)
    (length : Z) : M Z :=
  data ← read p (Z.to_nat length);
  emit (HidSendFeatureReport dev data length);;
  mret (hid_send_feature_report dev data length).

(* PsychGetPrecisionTimerSeconds(&AInScanStart) *)
Definition call_PsychGetPrecisionTimerSeconds_AInScanStart : M unit :=
  fun w =>
    (log GetPrecisionTimerSeconds
       {| argBuffer := argBuffer w; scratchBuffer := scratchBuffer w;
          AInScanStart := PsychGetPrecisionTimerSeconds;
          trace := trace w |},
     Returned tt).

Definition call_PsychHIDErrors (dev : handle) (error : Z)
  : M (string * string) :=
  emit (HIDErrors dev error);;
  mret (PsychHIDErrors dev error).

(** ** The function *)

Definition too_large_msg : string :=
  "Tried to send a HID report which exceeds the maximum allowable size! Aborted.".
Definition empty_msg : string :=
  "Tried to send an empty HID report! Aborted.".
Definition bad_type_msg : string :=
  "Invalid 'reportType' for this function provided!".
Definition bad_interface_msg : string :=
  "PsychHID SetReport: Bad interface.\n".

(* for (i = 0; i < reportSize; i++) printf of (int)reportBuffer[i] *)
Fixpoint echo_bytes (reportBuffer : pointer) (i : nat) (count : nat)
  : M unit :=
  match count with
  | O => mret tt
  | S count' =>
      b ← load reportBuffer i;
      printf "%d " [int_of_uchar b];;
      echo_bytes reportBuffer (S i) count'
  end.

(* Tail of both transport branches and of the echo branch. *)
Definition return_outErr (error : Z) (name description : string) : M Err :=
  mret {| n := error; name := name; description := description |}.

Definition PSYCHHIDSetReport (deviceIndex reportType reportID : Z) : M Err :=
  fun w0 =>
  (let reportBuffer := Ptr ArgArray 0 in
   (* int reportSize = (element size) * (number of elements), or m * n * p *)
   let reportSize := to_int (Z.of_nat (length (argBuffer w0))) in
   when (bool_decide (reportSize > Z.of_nat MAXREPORTSIZE))
     (PsychErrorExitMsg PsychError_user too_large_msg);;
   when (bool_decide (reportSize < 1))
     (PsychErrorExitMsg PsychError_user empty_msg);;
   when (bool_decide (reportType < 0 \/ reportType > 3 \/ reportType = 1))
     (PsychErrorExitMsg PsychError_user bad_type_msg);;
   call_PsychHIDVerifyInit;;
   device ← call_PsychHIDGetDeviceRecordPtrFromIndex deviceIndex;
   when (bool_decide (reportID <> 0))
     (store reportBuffer 0 (uchar (Z.land 255 reportID)));;  (* 0xff & reportID *)
   if bool_decide (reportType = 0) then
     printf "SetReport(reportType %d, reportID %d, report "
            [reportType; reportID];;
     echo_bytes reportBuffer 0 (Z.to_nat reportSize);;
     printf ")\n" [];;
     return_outErr 0 "" ""
   else
     match PSYCH_SYSTEM with
     | PSYCH_OSX =>
         let iface := PsychHIDGetDeviceInterfacePtrFromIndex deviceIndex in
         error ← (if bool_decide (iface <> NULL)
                  then call_setReport iface (reportType - 1) reportID
                         reportBuffer reportSize 50
                  else exit (PrintfExit bad_interface_msg));
         when (bool_decide (reportID = 17))  (* 0x11 *)
           call_PsychGetPrecisionTimerSeconds_AInScanStart;;
         '(name, description) ← call_PsychHIDErrors NULL error;
         return_outErr error name description
     | _ =>
         '(reportBuffer, reportSize) ←
           (if bool_decide (reportID = 0) then
              memcpy (Ptr ScratchArray 1) reportBuffer (Z.to_nat reportSize);;
              store (Ptr ScratchArray 0) 0 (uchar 0);;
              mret (Ptr ScratchArray 0, reportSize + 1)
            else mret (reportBuffer, reportSize));
         error ← (if bool_decide (reportType = 2)
                  then call_hid_write (interface device)
                         reportBuffer reportSize
                  else call_hid_send_feature_report (interface device)
                         reportBuffer reportSize);
         when (bool_decide (reportID = 17))  (* 0x11 *)
           call_PsychGetPrecisionTimerSeconds_AInScanStart;;
         let error := if bool_decide (error >= 0) then 0 else error in
         '(name, description) ← call_PsychHIDErrors (interface device) error;
         return_outErr error name description
     end) w0.

(** ** Observers used to state properties *)

(** The caller's array as it stands once the report ID is in place. *)
Definition with_reportID (reportID : Z) (report : list byte) : list byte :=
  if bool_decide (reportID <> 0)
  then <[0%nat := uchar (Z.land 255 reportID)]> report
  else report.

Definition is_transport (e : Event) : bool :=
  match e with
  | SetReport _ _ _ _ _ _ | HidWrite _ _ _ | HidSendFeatureReport _ _ _ => true
  | _ => false
  end.

Definition is_capture (e : Event) : bool :=
  match e with
  | GetPrecisionTimerSeconds => true
  | _ => false
  end.

(** The transport calls made, and the number of timestamp captures. *)
Definition transmissions (tr : list Event) : list Event :=
  List.filter is_transport tr.

Definition captures (tr : list Event) : nat :=
  length (List.filter is_capture tr).

(** The echo branch's output for a buffer. *)
Definition echo_output (reportType reportID : Z) (bs : list byte)
  : list Event :=
  Printf "SetReport(reportType %d, reportID %d, report " [reportType; reportID]
    :: map (fun b => Printf "%d " [int_of_uchar b]) bs
    ++ [Printf ")\n" []].

(** Validation exits, under the names the specification gives them. *)
Definition SizeError : Exit := ErrorExitMsg PsychError_user too_large_msg.
Definition EmptyReportError : Exit := ErrorExitMsg PsychError_user empty_msg.
Definition InvalidTypeError : Exit := ErrorExitMsg PsychError_user bad_type_msg.

Definition logs (es : list Event) (w : World) : World :=
  {| argBuffer := argBuffer w; scratchBuffer := scratchBuffer w;
     AInScanStart := AInScanStart w; trace := trace w ++ es |}.

(** The static array has the size it is declared with. *)
Definition scratch_ok (w : World) : Prop :=
  length (scratchBuffer w) = S MAXREPORTSIZE.

(** The conditions under which the call gets past its three checks and
    the device lookup. A report is in range when it has 1 to MAXREPORTSIZE
    bytes, a number that the [int] reportSize holds. *)
Definition size_in_range (w : World) : Prop :=
  (1 <= length (argBuffer w) <= MAXREPORTSIZE)%nat
  /\ Z.of_nat (length (argBuffer w)) <= INT_MAX.

(** What the function has in [reportSize] for the report of [w]; the two
    size checks as they see it; and the number of bytes the function works
    on once they have passed. *)
Definition reportSize_of (w : World) : Z :=
  to_int (Z.of_nat (length (argBuffer w))).

Definition size_passes (w : World) : Prop :=
  1 <= reportSize_of w <= Z.of_nat MAXREPORTSIZE.

Definition report_count (w : World) : nat := Z.to_nat (reportSize_of w).

Definition type_accepted (reportType : Z) : Prop :=
  reportType = 0 \/ reportType = 2 \/ reportType = 3.

Definition device_found (deviceIndex : Z) (device : recDevice) : Prop :=
  PsychHIDVerifyInit_ok = true /\
  PsychHIDGetDeviceRecordPtrFromIndex deviceIndex = Some device.

(** What a call added to the trace: the events of [w'] after those
    already in [w]. *)
Definition new_events (w w' : World) : list Event :=
  drop (length (trace w)) (trace w').

End SetReport.

(** ** Calls in sequence

    The interpreter calls the function again and again in one process: each
    call brings its own array as argument 4, and the static scratch array,
    [AInScanStart] and what was observed so far are as the previous call
    left them, also after a call that left through the error exit. *)
Section Sessions.
Context `{B : Build} `{C : @Collaborators B}.

(** What a transport call was handed: the bytes at its pointer and its
    length argument. *)
Definition payload (e : Event) : option (list byte * Z) :=
  match e with
  | SetReport _ _ _ data size _ => Some (data, size)
  | HidWrite _ data len | HidSendFeatureReport _ data len => Some (data, len)
  | _ => None
  end.

Definition is_error_lookup (e : Event) : bool :=
  match e with
  | HIDErrors _ _ => true
  | _ => false
  end.

(** The arguments of one [PsychHID('SetReport', ...)]. *)
Record Call := {
  call_deviceIndex : Z;
  call_reportType : Z;
  call_reportID : Z;
  call_report : list byte
}.

Definition invoke (c : Call) (w : World) : World * Outcome Err :=
  PSYCHHIDSetReport (call_deviceIndex c) (call_reportType c) (call_reportID c)
    (set_bytes w ArgArray (call_report c)).

Fixpoint session (cs : list Call) (w : World) : World * list (Outcome Err) :=
  match cs with
  | [] => (w, [])
  | c :: cs' =>
      let r := invoke c w in
      let rs := session cs' r.1 in
      (rs.1, r.2 :: rs.2)
  end.

End Sessions.

(** ** A concrete build and mock collaborators

    A small configuration on which the function can be run: reports of at
    most 8 bytes, timestamps as integers, one device (index 1, handle 7),
    and a transport whose answer is chosen by the test. *)
Module Mock.

Definition build (sys : System) : Build :=
  {| PSYCH_SYSTEM := sys; MAXREPORTSIZE := 8; double := Z |}.

Definition collaborators (sys : System) (now status : Z)
  : @Collaborators (build sys) :=
  {| PsychHIDVerifyInit_ok := true;
     PsychHIDGetDeviceRecordPtrFromIndex := fun i =>
       if bool_decide (i = 1) then Some {| interface := 7%N |} else None;
     PsychHIDGetDeviceInterfacePtrFromIndex := fun i =>
       if bool_decide (i = 1) then 7%N else NULL;
     setReport := fun _ _ _ _ _ _ => status;
     hid_write := fun _ _ len =>
       if bool_decide (status < 0) then status else len;
     hid_send_feature_report := fun _ _ len =>
       if bool_decide (status < 0) then status else len;
     PsychGetPrecisionTimerSeconds := (now : @double (build sys));
     PsychHIDErrors := fun _ e =>
       if bool_decide (e = 0) then (""%string, ""%string)
       else ("error"%string, "transfer failed"%string) |}.

(** The state before a call on the array [report]: the static scratch
    array zeroed, the last scan start at 0, nothing observed yet. *)
Definition world (sys : System) (report : list byte) : @World (build sys) :=
  {| argBuffer := report;
     scratchBuffer := replicate 9 Byte.x00;
     AInScanStart := (0 : @double (build sys));
     trace := [] |}.

(** [PsychHID('SetReport', deviceIndex, reportType, reportID, report)] on
    system [sys], at time [now], with a transport answering [status]. *)
Definition run (sys : System) (now status : Z)
    (deviceIndex reportType reportID : Z) (report : list byte) :=
  @PSYCHHIDSetReport (build sys) (collaborators sys now status)
    deviceIndex reportType reportID (world sys report).

End Mock.

(** Further mock material: an OSX device whose record is found while its
    interface is NULL, a state that earlier calls have used, and a short
    sequence of calls. *)
Module Bench.

Definition no_interface (now status : Z)
  : @Collaborators (Mock.build PSYCH_OSX) :=
  {| PsychHIDVerifyInit_ok := true;
     PsychHIDGetDeviceRecordPtrFromIndex := fun _ =>
       Some {| interface := NULL |};
     PsychHIDGetDeviceInterfacePtrFromIndex := fun _ => NULL;
     setReport := fun _ _ _ _ _ _ => status;
     hid_write := fun _ _ _ => status;
     hid_send_feature_report := fun _ _ _ => status;
     PsychGetPrecisionTimerSeconds := (now : @double (Mock.build PSYCH_OSX));
     PsychHIDErrors := fun _ _ => (""%string, ""%string) |}.

Definition used_world (sys : System) (report : list byte)
  : @World (Mock.build sys) :=
  {| argBuffer := report;
     scratchBuffer := replicate 9 Byte.xff;
     AInScanStart := (5 : @double (Mock.build sys));
     trace := [Printf "earlier output" []] |}.

(** A report of 2^32+1 bytes: 4 GiB and one byte. *)
Definition oversize_report : list byte :=
  replicate (Z.to_nat 4294967297) Byte.x01.

Definition calls : list Call :=
  [ {| call_deviceIndex := 1; call_reportType := 2; call_reportID := 0;
       call_report := replicate 8 Byte.x01 |};
    {| call_deviceIndex := 1; call_reportType := 2; call_reportID := 0;
       call_report := [] |};
    {| call_deviceIndex := 1; call_reportType := 3; call_reportID := 0;
       call_report := [Byte.xaa] |} ].

End Bench.

(** * Properties *)

Section Properties.
Context `{B : Build} `{C : @Collaborators B}.
Implicit Types (w : World) (p : pointer) (bs report : list byte)
  (es : list Event).

(** ** Bytes *)

Lemma land_255_range (z : Z) : 0 <= Z.land 255 z < 256.
Proof.
  rewrite Z.land_comm. change 255 with (Z.ones 8).
  rewrite Z.land_ones by lia. apply Z.mod_pos_bound. lia.
Qed.

Lemma int_of_uchar_uchar (z : Z) : 0 <= z < 256 -> int_of_uchar (uchar z) = z.
Proof.
  intros Hz. unfold uchar, int_of_uchar.
  rewrite Z.mod_small by lia.
  destruct (Byte.of_N (Z.to_N z)) as [b|] eqn:E.
  - apply Byte.to_of_N in E. simpl. lia.
  - apply Byte.of_N_None_iff in E. lia.
Qed.

Lemma int_of_uchar_land (reportID : Z) :
  int_of_uchar (uchar (Z.land 255 reportID)) = Z.land reportID 255.
Proof.
  rewrite int_of_uchar_uchar by apply land_255_range. apply Z.land_comm.
Qed.

(** ** The trace *)

Lemma log_logs e w : log e w = logs [e] w.
Proof. reflexivity. Qed.

Lemma logs_logs es1 es2 w : logs es2 (logs es1 w) = logs (es1 ++ es2) w.
Proof. unfold logs. simpl. by rewrite app_assoc. Qed.

Lemma logs_nil w : logs [] w = w.
Proof. destruct w. unfold logs. simpl. by rewrite app_nil_r. Qed.

Lemma bytes_of_logs es w o : bytes_of (logs es w) o = bytes_of w o.
Proof. by destruct o. Qed.

Lemma transmissions_echo reportType reportID bs :
  transmissions (echo_output reportType reportID bs) = [].
Proof.
  unfold echo_output, transmissions. simpl.
  rewrite List.filter_app. simpl. rewrite app_nil_r.
  induction bs as [|b bs IH]; simpl; auto.
Qed.

Lemma captures_echo reportType reportID bs :
  captures (echo_output reportType reportID bs) = 0%nat.
Proof.
  unfold echo_output, captures. simpl.
  rewrite List.filter_app. simpl. rewrite app_nil_r.
  induction bs as [|b bs IH]; simpl; auto.
Qed.

(** ** Memory accesses that stay inside their array *)

Lemma read_in_bounds p k w :
  (off p + k <= length (bytes_of w (obj p)))%nat ->
  read p k w = (w, Returned (take k (drop (off p) (bytes_of w (obj p))))).
Proof. intros H. unfold read. by rewrite decide_True. Qed.

Lemma write_in_bounds p bs w :
  (off p + length bs <= length (bytes_of w (obj p)))%nat ->
  write p bs w =
    (set_bytes w (obj p)
       (take (off p) (bytes_of w (obj p)) ++ bs
        ++ drop (off p + length bs) (bytes_of w (obj p))),
     Returned tt).
Proof. intros H. unfold write. by rewrite decide_True. Qed.

Lemma store_first o b w :
  bytes_of w o <> [] ->
  store (Ptr o 0) 0 b w = (set_bytes w o (<[0%nat := b]> (bytes_of w o)), Returned tt).
Proof.
  intros H. unfold store. simpl.
  destruct (bytes_of w o) as [|x l] eqn:E; [done|].
  rewrite write_in_bounds by (simpl; rewrite E; simpl; lia).
  simpl. rewrite E. simpl. by rewrite drop_0.
Qed.

Lemma echo_bytes_run p k : forall i w,
  (off p + i + k <= length (bytes_of w (obj p)))%nat ->
  echo_bytes p i k w =
    (logs (map (fun b => Printf "%d " [int_of_uchar b])
             (take k (drop (off p + i) (bytes_of w (obj p))))) w,
     Returned tt).
Proof.
  induction k as [|k IH]; intros i w Hk.
  - simpl. by rewrite logs_nil.
  - simpl. unfold mbind, M_bind, load.
    unfold mbind, M_bind.
    rewrite read_in_bounds by (simpl; lia). simpl.
    destruct (drop (off p + i) (bytes_of w (obj p))) as [|b rest] eqn:E.
    { apply (f_equal length) in E. rewrite length_drop in E. simpl in E. lia. }
    simpl. unfold printf, emit, mret, M_ret. rewrite log_logs.
    rewrite IH by (rewrite bytes_of_logs; lia).
    rewrite logs_logs, bytes_of_logs. simpl.
    replace (drop (off p + S i) (bytes_of w (obj p))) with rest; [done|].
    replace (off p + S i)%nat with (off p + i + 1)%nat by lia.
    by rewrite <- drop_drop, E.
Qed.


Lemma set_bytes_same w o : set_bytes w o (bytes_of w o) = w.
Proof. by destruct w, o. Qed.

Lemma store_reportID reportID w :
  argBuffer w <> [] ->
  when (bool_decide (reportID <> 0))
    (store (Ptr ArgArray 0) 0 (uchar (Z.land 255 reportID))) w
  = (set_bytes w ArgArray (with_reportID reportID (argBuffer w)), Returned tt).
Proof.
  intros H. unfold with_reportID, when. case_bool_decide.
  - by rewrite store_first.
  - unfold mret, M_ret. f_equal. by destruct w.
Qed.

Lemma length_with_reportID reportID report :
  length (with_reportID reportID report) = length report.
Proof.
  unfold with_reportID. case_bool_decide; [|done]. by rewrite length_insert.
Qed.

Lemma bind_returned {A1 A2} (m : M A1) (f : A1 -> M A2) w w' a :
  m w = (w', Returned a) -> (m ≫= f) w = f a w'.
Proof. intros H. unfold mbind, M_bind. by rewrite H. Qed.

Lemma call_setReport_run iface type id o size timeoutMS w :
  (Z.to_nat size <= length (bytes_of w o))%nat ->
  let data := take (Z.to_nat size) (bytes_of w o) in
  call_setReport iface type id (Ptr o 0) size timeoutMS w =
    (log (SetReport iface type id data size timeoutMS) w,
     Returned (setReport iface type id data size timeoutMS)).
Proof.
  intros H data. unfold call_setReport.
  erewrite bind_returned by (apply read_in_bounds; simpl; lia).
  reflexivity.
Qed.

Lemma call_hid_write_run dev o size w :
  (Z.to_nat size <= length (bytes_of w o))%nat ->
  let data := take (Z.to_nat size) (bytes_of w o) in
  call_hid_write dev (Ptr o 0) size w =
    (log (HidWrite dev data size) w, Returned (hid_write dev data size)).
Proof.
  intros H data. unfold call_hid_write.
  erewrite bind_returned by (apply read_in_bounds; simpl; lia).
  reflexivity.
Qed.

Lemma call_hid_send_feature_report_run dev o size w :
  (Z.to_nat size <= length (bytes_of w o))%nat ->
  let data := take (Z.to_nat size) (bytes_of w o) in
  call_hid_send_feature_report dev (Ptr o 0) size w =
    (log (HidSendFeatureReport dev data size) w,
     Returned (hid_send_feature_report dev data size)).
Proof.
  intros H data. unfold call_hid_send_feature_report.
  erewrite bind_returned by (apply read_in_bounds; simpl; lia).
  reflexivity.
Qed.

(** ** The size the function works with

    [reportSize] is the byte count as an [int] holds it. For a report of
    at most [INT_MAX] bytes that is the count itself; beyond, only its low
    32 bits are left, and the function works on that many leading bytes. *)

Local Arguments to_int : simpl never.
Local Arguments reportSize_of : simpl never.
Local Arguments report_count : simpl never.

Lemma to_int_small (z : Z) : - 2147483648 <= z <= INT_MAX -> to_int z = z.
Proof. unfold to_int, INT_MAX. intros H. rewrite Z.mod_small by lia. lia. Qed.

Lemma to_int_below (z : Z) : 0 <= z -> 1 <= to_int z -> to_int z <= z.
Proof. unfold to_int. intros Hz H. Z.div_mod_to_equations. lia. Qed.

Lemma size_passes_facts w :
  size_passes w ->
  argBuffer w <> []
  /\ (1 <= report_count w <= MAXREPORTSIZE)%nat
  /\ (report_count w <= length (argBuffer w))%nat
  /\ reportSize_of w = Z.of_nat (report_count w).
Proof.
  unfold size_passes, report_count, reportSize_of. intros [Hlo Hhi].
  pose proof (to_int_below (Z.of_nat (length (argBuffer w)))
                ltac:(lia) Hlo) as Hle.
  repeat split; try lia.
  intros E. rewrite E in Hlo. by vm_compute in Hlo.
Qed.

Lemma size_in_range_passes w :
  size_in_range w ->
  size_passes w
  /\ reportSize_of w = Z.of_nat (length (argBuffer w))
  /\ report_count w = length (argBuffer w).
Proof.
  unfold size_in_range, size_passes, report_count, reportSize_of.
  intros [[Hlo Hhi] Hint].
  rewrite to_int_small by lia. repeat split; lia.
Qed.

Lemma take_with_reportID_all reportID report :
  take (length report) (with_reportID reportID report)
  = with_reportID reportID report.
Proof. by rewrite <- (length_with_reportID reportID report), firstn_all. Qed.

Ltac bounds :=
  unfold report_count in *; simpl; rewrite ?length_with_reportID; lia.

Ltac pass_checks :=
  unfold PSYCHHIDSetReport, call_PsychHIDVerifyInit,
    call_PsychHIDGetDeviceRecordPtrFromIndex;
  match goal with
  | |- context [to_int (Z.of_nat (length (argBuffer ?w)))] =>
      fold (reportSize_of w)
  end;
  rewrite (bool_decide_eq_false_2 (_ > _)), (bool_decide_eq_false_2 (_ < 1)),
    (bool_decide_eq_false_2 (_ \/ _))
    by (unfold type_accepted, size_passes in *; lia);
  match goal with
  | Hinit : PsychHIDVerifyInit_ok = true,
    Hdev : PsychHIDGetDeviceRecordPtrFromIndex _ = Some _ |- _ =>
      rewrite Hinit, Hdev
  end;
  unfold mbind at 1 2 3 4 5; cbn [M_bind when mret M_ret];
  erewrite bind_returned by (apply store_reportID; assumption).

Ltac step_by tac := erewrite bind_returned by tac.
Ltac step := erewrite bind_returned by reflexivity.

(** ** What one call does, path by path

    In these equations the report's size is only required to get past the
    two size checks; [report_count w] is the number of bytes the function
    then works on. *)

Lemma path_echo deviceIndex device reportID w :
  size_passes w -> device_found deviceIndex device ->
  PSYCHHIDSetReport deviceIndex 0 reportID w =
    (logs (echo_output 0 reportID
             (take (report_count w) (with_reportID reportID (argBuffer w))))
       (set_bytes w ArgArray (with_reportID reportID (argBuffer w))),
     Returned {| n := 0; name := ""; description := "" |}).
Proof.
  intros Hsize [Hinit Hdev].
  destruct (size_passes_facts w Hsize) as (Hne & Hk & Hkle & Hrs).
  pass_checks. fold (report_count w).
  rewrite bool_decide_eq_true_2 by done.
  unfold printf, emit. unfold mbind at 1. cbn [M_bind].
  erewrite bind_returned by (apply echo_bytes_run; bounds).
  unfold mbind, return_outErr, mret. cbn [M_bind M_ret].
  rewrite !log_logs, !logs_logs. reflexivity.
Qed.

Lemma path_osx_bad_interface deviceIndex device reportType reportID w :
  PSYCH_SYSTEM = PSYCH_OSX ->
  size_passes w -> reportType = 2 \/ reportType = 3 ->
  device_found deviceIndex device ->
  PsychHIDGetDeviceInterfacePtrFromIndex deviceIndex = NULL ->
  PSYCHHIDSetReport deviceIndex reportType reportID w =
    (set_bytes w ArgArray (with_reportID reportID (argBuffer w)),
     Exited (PrintfExit bad_interface_msg)).
Proof.
  intros Hsys Hsize Hty [Hinit Hdev] Hif.
  destruct (size_passes_facts w Hsize) as (Hne & Hk & Hkle & Hrs).
  pass_checks.
  rewrite (bool_decide_eq_false_2 (reportType = 0)) by lia. rewrite Hsys, Hif.
  rewrite (bool_decide_eq_false_2 (_ <> NULL)) by (intros E; by apply E).
  reflexivity.
Qed.

Lemma path_osx deviceIndex device reportType reportID w :
  PSYCH_SYSTEM = PSYCH_OSX ->
  size_passes w -> reportType = 2 \/ reportType = 3 ->
  device_found deviceIndex device ->
  PsychHIDGetDeviceInterfacePtrFromIndex deviceIndex <> NULL ->
  let iface := PsychHIDGetDeviceInterfacePtrFromIndex deviceIndex in
  let report := with_reportID reportID (argBuffer w) in
  let data := take (report_count w) report in
  let size := reportSize_of w in
  let error := setReport iface (reportType - 1) reportID data size 50 in
  PSYCHHIDSetReport deviceIndex reportType reportID w =
    ({| argBuffer := report;
        scratchBuffer := scratchBuffer w;
        AInScanStart :=
          if bool_decide (reportID = 17)
          then PsychGetPrecisionTimerSeconds else AInScanStart w;
        trace :=
          trace w
          ++ SetReport iface (reportType - 1) reportID data size 50
          :: (if bool_decide (reportID = 17)
              then [GetPrecisionTimerSeconds] else [])
          ++ [HIDErrors NULL error] |},
     Returned {| n := error;
                 name := (PsychHIDErrors NULL error).1;
                 description := (PsychHIDErrors NULL error).2 |}).
Proof.
  intros Hsys Hsize Hty [Hinit Hdev] Hif iface report data size error.
  destruct (size_passes_facts w Hsize) as (Hne & Hk & Hkle & Hrs).
  pass_checks.
  rewrite (bool_decide_eq_false_2 (reportType = 0)) by lia. rewrite Hsys.
  rewrite (bool_decide_eq_true_2 (_ <> NULL)) by done.
  step_by ltac:(apply call_setReport_run; bounds).
  cbn [bytes_of set_bytes argBuffer].
  fold (report_count w). fold iface report data size error.
  destruct (bool_decide (reportID = 17)); step; step;
    destruct (PsychHIDErrors NULL error) as [nm ds];
    unfold return_outErr, mret, M_ret, log; cbn [argBuffer scratchBuffer
      AInScanStart trace fst snd];
    by rewrite <- ?app_assoc.
Qed.

Lemma memcpy_into_scratch (k : nat) w :
  (k <= length (argBuffer w))%nat ->
  (S k <= length (scratchBuffer w))%nat ->
  memcpy (Ptr ScratchArray 1) (Ptr ArgArray 0) k w =
    (set_bytes w ScratchArray
       (take 1 (scratchBuffer w) ++ take k (argBuffer w)
        ++ drop (S k) (scratchBuffer w)),
     Returned tt).
Proof.
  intros Hk Hlen. unfold memcpy.
  step_by ltac:(apply read_in_bounds; simpl; lia).
  cbn [off obj bytes_of]. rewrite drop_0.
  rewrite write_in_bounds by (simpl; rewrite length_take; lia).
  cbn [off obj bytes_of]. rewrite length_take, Nat.min_l by lia.
  reflexivity.
Qed.

Lemma frame_in_scratch (k : nat) (size : Z) w :
  (k <= length (argBuffer w))%nat ->
  (S k <= length (scratchBuffer w))%nat ->
  (memcpy (Ptr ScratchArray 1) (Ptr ArgArray 0) k;;
   store (Ptr ScratchArray 0) 0 (uchar 0);;
   mret (Ptr ScratchArray 0, size + 1)) w
  = (set_bytes w ScratchArray
       (Byte.x00 :: take k (argBuffer w)
        ++ drop (S k) (scratchBuffer w)),
     Returned (Ptr ScratchArray 0, size + 1)).
Proof.
  intros Hk Hlen.
  step_by ltac:(by apply memcpy_into_scratch).
  destruct (scratchBuffer w) as [|s0 rest] eqn:E; [simpl in Hlen; lia|].
  step_by ltac:(by apply store_first).
  unfold mret, M_ret. by destruct w.
Qed.

Lemma take_framed (b : byte) (l r : list byte) :
  take (Z.to_nat (Z.of_nat (length l) + 1)) (b :: l ++ r) = b :: l.
Proof.
  replace (Z.to_nat (Z.of_nat (length l) + 1)) with (S (length l)) by lia.
  simpl. f_equal. apply take_app_length.
Qed.

Lemma not_osx {A} (X Y : A) :
  PSYCH_SYSTEM <> PSYCH_OSX ->
  match PSYCH_SYSTEM with PSYCH_OSX => X | _ => Y end = Y.
Proof. by destruct PSYCH_SYSTEM. Qed.

Lemma path_hidlib_zero deviceIndex device reportType w :
  PSYCH_SYSTEM <> PSYCH_OSX ->
  size_passes w ->
  (report_count w < length (scratchBuffer w))%nat ->
  reportType = 2 \/ reportType = 3 ->
  device_found deviceIndex device ->
  let dev := interface device in
  let sent := Byte.x00 :: take (report_count w) (argBuffer w) in
  let size := reportSize_of w + 1 in
  let status :=
    if bool_decide (reportType = 2)
    then hid_write dev sent size
    else hid_send_feature_report dev sent size in
  let error := if bool_decide (status >= 0) then 0 else status in
  PSYCHHIDSetReport deviceIndex reportType 0 w =
    ({| argBuffer := argBuffer w;
        scratchBuffer :=
          sent ++ drop (S (report_count w)) (scratchBuffer w);
        AInScanStart := AInScanStart w;
        trace :=
          trace w
          ++ [if bool_decide (reportType = 2)
              then HidWrite dev sent size
              else HidSendFeatureReport dev sent size;
              HIDErrors dev error] |},
     Returned {| n := error;
                 name := (PsychHIDErrors dev error).1;
                 description := (PsychHIDErrors dev error).2 |}).
Proof.
  intros Hsys Hsize Hscr Hty [Hinit Hdev] dev sent size status error.
  destruct (size_passes_facts w Hsize) as (Hne & Hk & Hkle & Hrs).
  pass_checks. fold (report_count w).
  rewrite (bool_decide_eq_false_2 (reportType = 0)) by lia.
  rewrite not_osx by done.
  change (with_reportID 0 (argBuffer w)) with (bytes_of w ArgArray).
  rewrite set_bytes_same.
  change (bool_decide (0 = 0)) with true. cbn iota.
  step_by ltac:(apply frame_in_scratch; lia).
  assert (take (Z.to_nat (reportSize_of w + 1))
            (Byte.x00 :: take (report_count w) (argBuffer w)
             ++ drop (S (report_count w)) (scratchBuffer w))
          = sent) as Htake.
  { rewrite Hrs.
    rewrite <- (length_take_le (argBuffer w) (report_count w)) at 1 by lia.
    apply take_framed. }
  assert (Z.to_nat (reportSize_of w + 1)
          <= length (bytes_of (set_bytes w ScratchArray
               (Byte.x00 :: take (report_count w) (argBuffer w)
                ++ drop (S (report_count w)) (scratchBuffer w)))
               ScratchArray))%nat as Hin.
  { cbn [bytes_of set_bytes scratchBuffer length].
    rewrite length_app, length_take, length_drop. lia. }
  destruct Hty as [-> | ->]; cbn [bool_decide decide_rel] in *.
  - step_by ltac:(apply call_hid_write_run, Hin).
    cbn [bytes_of set_bytes scratchBuffer]. rewrite Htake.
    fold dev size. step. step.
    change (hid_write dev sent size) with status. fold error.
    destruct (PsychHIDErrors dev error) as [nm ds].
    unfold return_outErr, mret, M_ret, log;
      cbn [argBuffer scratchBuffer AInScanStart trace fst snd set_bytes].
    by rewrite <- ?app_assoc.
  - step_by ltac:(apply call_hid_send_feature_report_run, Hin).
    cbn [bytes_of set_bytes scratchBuffer]. rewrite Htake.
    fold dev size. step. step.
    change (hid_send_feature_report dev sent size) with status. fold error.
    destruct (PsychHIDErrors dev error) as [nm ds].
    unfold return_outErr, mret, M_ret, log;
      cbn [argBuffer scratchBuffer AInScanStart trace fst snd set_bytes].
    by rewrite <- ?app_assoc.
Qed.

Lemma path_hidlib_id deviceIndex device reportType reportID w :
  PSYCH_SYSTEM <> PSYCH_OSX ->
  size_passes w -> reportType = 2 \/ reportType = 3 ->
  device_found deviceIndex device ->
  reportID <> 0 ->
  let dev := interface device in
  let report := with_reportID reportID (argBuffer w) in
  let data := take (report_count w) report in
  let size := reportSize_of w in
  let status :=
    if bool_decide (reportType = 2)
    then hid_write dev data size
    else hid_send_feature_report dev data size in
  let error := if bool_decide (status >= 0) then 0 else status in
  PSYCHHIDSetReport deviceIndex reportType reportID w =
    ({| argBuffer := report;
        scratchBuffer := scratchBuffer w;
        AInScanStart :=
          if bool_decide (reportID = 17)
          then PsychGetPrecisionTimerSeconds else AInScanStart w;
        trace :=
          trace w
          ++ (if bool_decide (reportType = 2)
              then HidWrite dev data size
              else HidSendFeatureReport dev data size)
          :: (if bool_decide (reportID = 17)
              then [GetPrecisionTimerSeconds] else [])
          ++ [HIDErrors dev error] |},
     Returned {| n := error;
                 name := (PsychHIDErrors dev error).1;
                 description := (PsychHIDErrors dev error).2 |}).
Proof.
  intros Hsys Hsize Hty [Hinit Hdev] Hid dev report data size status error.
  destruct (size_passes_facts w Hsize) as (Hne & Hk & Hkle & Hrs).
  pass_checks.
  rewrite (bool_decide_eq_false_2 (reportType = 0)) by lia.
  rewrite not_osx by done.
  rewrite (bool_decide_eq_false_2 (reportID = 0)) by done.
  step.
  assert (Z.to_nat (reportSize_of w)
          <= length (bytes_of (set_bytes w ArgArray report) ArgArray))%nat
    as Hin by (unfold report; bounds).
  destruct Hty as [-> | ->]; cbn [bool_decide decide_rel] in *.
  - step_by ltac:(apply call_hid_write_run, Hin).
    cbn [bytes_of set_bytes argBuffer].
    fold (report_count w). fold report data dev size.
    change (hid_write dev data size) with status.
    destruct (bool_decide (reportID = 17)); step; step; fold error;
      destruct (PsychHIDErrors dev error) as [nm ds];
      unfold return_outErr, mret, M_ret, log;
      cbn [argBuffer scratchBuffer AInScanStart trace fst snd set_bytes];
      by rewrite <- ?app_assoc.
  - step_by ltac:(apply call_hid_send_feature_report_run, Hin).
    cbn [bytes_of set_bytes argBuffer].
    fold (report_count w). fold report data dev size.
    change (hid_send_feature_report dev data size) with status.
    destruct (bool_decide (reportID = 17)); step; step; fold error;
      destruct (PsychHIDErrors dev error) as [nm ds];
      unfold return_outErr, mret, M_ret, log;
      cbn [argBuffer scratchBuffer AInScanStart trace fst snd set_bytes];
      by rewrite <- ?app_assoc.
Qed.

(** *** Paths that stop early *)

Lemma path_too_large deviceIndex reportType reportID w :
  Z.of_nat MAXREPORTSIZE < reportSize_of w ->
  PSYCHHIDSetReport deviceIndex reportType reportID w = (w, Exited SizeError).
Proof.
  intros H. unfold PSYCHHIDSetReport. fold (reportSize_of w).
  rewrite (bool_decide_eq_true_2 (_ > _)) by lia. reflexivity.
Qed.

Lemma path_empty deviceIndex reportType reportID w :
  reportSize_of w < 1 ->
  PSYCHHIDSetReport deviceIndex reportType reportID w =
    (w, Exited EmptyReportError).
Proof.
  intros H. unfold PSYCHHIDSetReport. fold (reportSize_of w).
  rewrite (bool_decide_eq_false_2 (_ > _)) by lia.
  rewrite (bool_decide_eq_true_2 (_ < 1)) by lia. reflexivity.
Qed.

Lemma path_bad_type deviceIndex reportType reportID w :
  size_passes w -> ~ type_accepted reportType ->
  PSYCHHIDSetReport deviceIndex reportType reportID w =
    (w, Exited InvalidTypeError).
Proof.
  intros [Hlo Hhi] Hty. unfold PSYCHHIDSetReport. fold (reportSize_of w).
  rewrite (bool_decide_eq_false_2 (_ > _)) by lia.
  rewrite (bool_decide_eq_false_2 (_ < 1)) by lia.
  rewrite (bool_decide_eq_true_2 (_ \/ _)) by (unfold type_accepted in Hty; lia).
  reflexivity.
Qed.

Lemma path_no_init deviceIndex reportType reportID w :
  size_passes w -> type_accepted reportType ->
  PsychHIDVerifyInit_ok = false ->
  PSYCHHIDSetReport deviceIndex reportType reportID w =
    (w, Exited (ExitFrom "PsychHIDVerifyInit")).
Proof.
  intros [Hlo Hhi] Hty Hinit.
  unfold PSYCHHIDSetReport, call_PsychHIDVerifyInit. fold (reportSize_of w).
  rewrite (bool_decide_eq_false_2 (_ > _)), (bool_decide_eq_false_2 (_ < 1)),
    (bool_decide_eq_false_2 (_ \/ _)) by (unfold type_accepted in *; lia).
  by rewrite Hinit.
Qed.

Lemma path_no_device deviceIndex reportType reportID w :
  size_passes w -> type_accepted reportType ->
  PsychHIDVerifyInit_ok = true ->
  PsychHIDGetDeviceRecordPtrFromIndex deviceIndex = None ->
  PSYCHHIDSetReport deviceIndex reportType reportID w =
    (w, Exited (ExitFrom "PsychHIDGetDeviceRecordPtrFromIndex")).
Proof.
  intros [Hlo Hhi] Hty Hinit Hdev.
  unfold PSYCHHIDSetReport, call_PsychHIDVerifyInit,
    call_PsychHIDGetDeviceRecordPtrFromIndex. fold (reportSize_of w).
  rewrite (bool_decide_eq_false_2 (_ > _)), (bool_decide_eq_false_2 (_ < 1)),
    (bool_decide_eq_false_2 (_ \/ _)) by (unfold type_accepted in *; lia).
  by rewrite Hinit, Hdev.
Qed.

(** Were the static array shorter than declared, the framing copy would
    leave it: the bound on the report alone is not what keeps it inside. *)
Lemma path_hidlib_zero_short_scratch deviceIndex device reportType w :
  PSYCH_SYSTEM <> PSYCH_OSX ->
  size_passes w -> reportType = 2 \/ reportType = 3 ->
  device_found deviceIndex device ->
  (length (scratchBuffer w) <= report_count w)%nat ->
  PSYCHHIDSetReport deviceIndex reportType 0 w = (w, Fault).
Proof.
  intros Hsys Hsize Hty [Hinit Hdev] Hshort.
  destruct (size_passes_facts w Hsize) as (Hne & Hk & Hkle & Hrs).
  pass_checks. fold (report_count w).
  rewrite (bool_decide_eq_false_2 (reportType = 0)) by lia.
  rewrite not_osx by done.
  change (with_reportID 0 (argBuffer w)) with (bytes_of w ArgArray).
  rewrite set_bytes_same.
  change (bool_decide (0 = 0)) with true. cbn iota.
  unfold memcpy, mbind, M_bind.
  rewrite read_in_bounds by (simpl; lia).
  cbn [off obj bytes_of]. rewrite drop_0.
  unfold write. rewrite decide_False; [reflexivity|].
  cbn [off obj bytes_of]. rewrite length_take, Nat.min_l by lia. lia.
Qed.

(** ** The same paths for a report whose size an [int] holds *)

Lemma run_echo deviceIndex device reportID w :
  size_in_range w -> device_found deviceIndex device ->
  PSYCHHIDSetReport deviceIndex 0 reportID w =
    (logs (echo_output 0 reportID (with_reportID reportID (argBuffer w)))
       (set_bytes w ArgArray (with_reportID reportID (argBuffer w))),
     Returned {| n := 0; name := ""; description := "" |}).
Proof.
  intros Hsize Hdev.
  destruct (size_in_range_passes w Hsize) as (Hp & Hrs & Hk).
  rewrite (path_echo _ device) by done.
  by rewrite Hk, take_with_reportID_all.
Qed.

Lemma run_osx_bad_interface deviceIndex device reportType reportID w :
  PSYCH_SYSTEM = PSYCH_OSX ->
  size_in_range w -> reportType = 2 \/ reportType = 3 ->
  device_found deviceIndex device ->
  PsychHIDGetDeviceInterfacePtrFromIndex deviceIndex = NULL ->
  PSYCHHIDSetReport deviceIndex reportType reportID w =
    (set_bytes w ArgArray (with_reportID reportID (argBuffer w)),
     Exited (PrintfExit bad_interface_msg)).
Proof.
  intros Hsys Hsize Hty Hdev Hif.
  destruct (size_in_range_passes w Hsize) as (Hp & Hrs & Hk).
  by apply (path_osx_bad_interface _ device).
Qed.

Lemma run_osx deviceIndex device reportType reportID w :
  PSYCH_SYSTEM = PSYCH_OSX ->
  size_in_range w -> reportType = 2 \/ reportType = 3 ->
  device_found deviceIndex device ->
  PsychHIDGetDeviceInterfacePtrFromIndex deviceIndex <> NULL ->
  let iface := PsychHIDGetDeviceInterfacePtrFromIndex deviceIndex in
  let report := with_reportID reportID (argBuffer w) in
  let size := Z.of_nat (length (argBuffer w)) in
  let error := setReport iface (reportType - 1) reportID report size 50 in
  PSYCHHIDSetReport deviceIndex reportType reportID w =
    ({| argBuffer := report;
        scratchBuffer := scratchBuffer w;
        AInScanStart :=
          if bool_decide (reportID = 17)
          then PsychGetPrecisionTimerSeconds else AInScanStart w;
        trace :=
          trace w
          ++ SetReport iface (reportType - 1) reportID report size 50
          :: (if bool_decide (reportID = 17)
              then [GetPrecisionTimerSeconds] else [])
          ++ [HIDErrors NULL error] |},
     Returned {| n := error;
                 name := (PsychHIDErrors NULL error).1;
                 description := (PsychHIDErrors NULL error).2 |}).
Proof.
  intros Hsys Hsize Hty Hdev Hif iface report size error.
  destruct (size_in_range_passes w Hsize) as (Hp & Hrs & Hk).
  rewrite (path_osx _ device) by done. cbn zeta.
  by rewrite Hk, Hrs, take_with_reportID_all.
Qed.

Lemma run_hidlib_zero deviceIndex device reportType w :
  PSYCH_SYSTEM <> PSYCH_OSX ->
  size_in_range w ->
  (length (argBuffer w) < length (scratchBuffer w))%nat ->
  reportType = 2 \/ reportType = 3 ->
  device_found deviceIndex device ->
  let dev := interface device in
  let sent := Byte.x00 :: argBuffer w in
  let size := Z.of_nat (length (argBuffer w)) + 1 in
  let status :=
    if bool_decide (reportType = 2)
    then hid_write dev sent size
    else hid_send_feature_report dev sent size in
  let error := if bool_decide (status >= 0) then 0 else status in
  PSYCHHIDSetReport deviceIndex reportType 0 w =
    ({| argBuffer := argBuffer w;
        scratchBuffer :=
          sent ++ drop (S (length (argBuffer w))) (scratchBuffer w);
        AInScanStart := AInScanStart w;
        trace :=
          trace w
          ++ [if bool_decide (reportType = 2)
              then HidWrite dev sent size
              else HidSendFeatureReport dev sent size;
              HIDErrors dev error] |},
     Returned {| n := error;
                 name := (PsychHIDErrors dev error).1;
                 description := (PsychHIDErrors dev error).2 |}).
Proof.
  intros Hsys Hsize Hscr Hty Hdev dev sent size status error.
  destruct (size_in_range_passes w Hsize) as (Hp & Hrs & Hk).
  rewrite (path_hidlib_zero _ device) by (done || lia). cbn zeta.
  by rewrite Hk, Hrs, firstn_all.
Qed.

Lemma run_hidlib_id deviceIndex device reportType reportID w :
  PSYCH_SYSTEM <> PSYCH_OSX ->
  size_in_range w -> reportType = 2 \/ reportType = 3 ->
  device_found deviceIndex device ->
  reportID <> 0 ->
  let dev := interface device in
  let report := with_reportID reportID (argBuffer w) in
  let size := Z.of_nat (length (argBuffer w)) in
  let status :=
    if bool_decide (reportType = 2)
    then hid_write dev report size
    else hid_send_feature_report dev report size in
  let error := if bool_decide (status >= 0) then 0 else status in
  PSYCHHIDSetReport deviceIndex reportType reportID w =
    ({| argBuffer := report;
        scratchBuffer := scratchBuffer w;
        AInScanStart :=
          if bool_decide (reportID = 17)
          then PsychGetPrecisionTimerSeconds else AInScanStart w;
        trace :=
          trace w
          ++ (if bool_decide (reportType = 2)
              then HidWrite dev report size
              else HidSendFeatureReport dev report size)
          :: (if bool_decide (reportID = 17)
              then [GetPrecisionTimerSeconds] else [])
          ++ [HIDErrors dev error] |},
     Returned {| n := error;
                 name := (PsychHIDErrors dev error).1;
                 description := (PsychHIDErrors dev error).2 |}).
Proof.
  intros Hsys Hsize Hty Hdev Hid dev report size status error.
  destruct (size_in_range_passes w Hsize) as (Hp & Hrs & Hk).
  rewrite (path_hidlib_id _ device) by done. cbn zeta.
  by rewrite Hk, Hrs, take_with_reportID_all.
Qed.

(** ** Calls that stop early *)

Lemma run_too_large deviceIndex reportType reportID w :
  (MAXREPORTSIZE < length (argBuffer w))%nat ->
  Z.of_nat (length (argBuffer w)) <= INT_MAX ->
  PSYCHHIDSetReport deviceIndex reportType reportID w = (w, Exited SizeError).
Proof.
  intros H Hint. apply path_too_large. unfold reportSize_of.
  rewrite to_int_small by lia. lia.
Qed.

Lemma run_empty deviceIndex reportType reportID w :
  length (argBuffer w) = 0%nat ->
  PSYCHHIDSetReport deviceIndex reportType reportID w =
    (w, Exited EmptyReportError).
Proof.
  intros H. apply path_empty. unfold reportSize_of. rewrite H. by vm_compute.
Qed.

Lemma run_bad_type deviceIndex reportType reportID w :
  size_in_range w -> ~ type_accepted reportType ->
  PSYCHHIDSetReport deviceIndex reportType reportID w =
    (w, Exited InvalidTypeError).
Proof.
  intros Hsize Hty. apply path_bad_type; [|done].
  by apply size_in_range_passes.
Qed.

Lemma run_no_init deviceIndex reportType reportID w :
  size_in_range w -> type_accepted reportType ->
  PsychHIDVerifyInit_ok = false ->
  PSYCHHIDSetReport deviceIndex reportType reportID w =
    (w, Exited (ExitFrom "PsychHIDVerifyInit")).
Proof.
  intros Hsize Hty Hinit. apply path_no_init; try done.
  by apply size_in_range_passes.
Qed.

Lemma run_no_device deviceIndex reportType reportID w :
  size_in_range w -> type_accepted reportType ->
  PsychHIDVerifyInit_ok = true ->
  PsychHIDGetDeviceRecordPtrFromIndex deviceIndex = None ->
  PSYCHHIDSetReport deviceIndex reportType reportID w =
    (w, Exited (ExitFrom "PsychHIDGetDeviceRecordPtrFromIndex")).
Proof.
  intros Hsize Hty Hinit Hdev. apply path_no_device; try done.
  by apply size_in_range_passes.
Qed.

Lemma run_hidlib_zero_short_scratch deviceIndex device reportType w :
  PSYCH_SYSTEM <> PSYCH_OSX ->
  size_in_range w -> reportType = 2 \/ reportType = 3 ->
  device_found deviceIndex device ->
  (length (scratchBuffer w) <= length (argBuffer w))%nat ->
  PSYCHHIDSetReport deviceIndex reportType 0 w = (w, Fault).
Proof.
  intros Hsys Hsize Hty Hdev Hshort.
  destruct (size_in_range_passes w Hsize) as (Hp & Hrs & Hk).
  apply (path_hidlib_zero_short_scratch _ device); try done. lia.
Qed.


(** ** Facts used by several properties *)

Lemma new_events_app w w' es :
  trace w' = trace w ++ es -> new_events w w' = es.
Proof. intros H. unfold new_events. rewrite H. apply drop_app_length. Qed.

Lemma new_events_logs w w' es :
  trace w' = trace w -> new_events w (logs es w') = es.
Proof. intros H. apply new_events_app. simpl. by rewrite H. Qed.

Lemma new_events_same w w' : trace w' = trace w -> new_events w w' = [].
Proof. intros H. apply new_events_app. by rewrite app_nil_r. Qed.

Lemma trace_set_bytes w o l : trace (set_bytes w o l) = trace w.
Proof. by destruct o. Qed.

Lemma AInScanStart_kept es o l w :
  AInScanStart (logs es (set_bytes w o l)) = AInScanStart w
  /\ AInScanStart (set_bytes w o l) = AInScanStart w.
Proof. by destruct o. Qed.

Lemma with_reportID_first reportID report :
  reportID <> 0 -> report <> [] ->
  with_reportID reportID report !! 0%nat
  = Some (uchar (Z.land 255 reportID)).
Proof.
  intros Hid Hne. unfold with_reportID.
  rewrite bool_decide_eq_true_2 by done.
  apply list_lookup_insert_eq. destruct report; [done | simpl; lia].
Qed.

Lemma with_reportID_rest reportID report (i : nat) :
  (1 <= i)%nat ->
  with_reportID reportID report !! i = report !! i.
Proof.
  intros Hi. unfold with_reportID. case_bool_decide; [|done].
  apply list_lookup_insert_ne. lia.
Qed.

Lemma size_in_range_nonempty w : size_in_range w -> argBuffer w <> [].
Proof. intros [Hlo _] E. rewrite E in Hlo. simpl in Hlo. lia. Qed.

(** C1: for every reportID in [1,255] and every report of 1 to
    MAXREPORTSIZE bytes, a call that gets past its checks leaves the
    caller's array with [reportID & 0xFF] as its first byte and its bytes
    at positions 1 and up as they were; and the transport, when one is
    called, receives exactly that array at its own length, with nothing
    put in front of it. *)
Theorem C1_reportID_written_in_place
    deviceIndex device reportType reportID w :
  1 <= reportID <= 255 ->
  size_in_range w -> type_accepted reportType ->
  device_found deviceIndex device ->
  let w' := (PSYCHHIDSetReport deviceIndex reportType reportID w).1 in
  let size := Z.of_nat (length (argBuffer w)) in
  (exists b, argBuffer w' !! 0%nat = Some b
             /\ int_of_uchar b = Z.land reportID 255) /\
  length (argBuffer w') = length (argBuffer w) /\
  (forall i : nat, (1 <= i)%nat -> argBuffer w' !! i = argBuffer w !! i) /\
  transmissions (new_events w w') =
    if bool_decide (reportType = 0) then []
    else match PSYCH_SYSTEM with
         | PSYCH_OSX =>
             let iface := PsychHIDGetDeviceInterfacePtrFromIndex deviceIndex in
             if bool_decide (iface <> NULL)
             then [SetReport iface (reportType - 1) reportID
                     (argBuffer w') size 50]
             else []
         | _ =>
             [if bool_decide (reportType = 2)
              then HidWrite (interface device) (argBuffer w') size
              else HidSendFeatureReport (interface device) (argBuffer w') size]
         end.
Proof.
  intros Hid Hsize Hty Hdev w' size.
  assert (argBuffer w' = with_reportID reportID (argBuffer w)
          /\ transmissions (new_events w w') =
              if bool_decide (reportType = 0) then []
              else match PSYCH_SYSTEM with
                   | PSYCH_OSX =>
                       let iface :=
                         PsychHIDGetDeviceInterfacePtrFromIndex deviceIndex in
                       if bool_decide (iface <> NULL)
                       then [SetReport iface (reportType - 1) reportID
                               (with_reportID reportID (argBuffer w)) size 50]
                       else []
                   | _ =>
                       [if bool_decide (reportType = 2)
                        then HidWrite (interface device)
                               (with_reportID reportID (argBuffer w)) size
                        else HidSendFeatureReport (interface device)
                               (with_reportID reportID (argBuffer w)) size]
                   end) as [Hbuf Htx].
  { subst w'. destruct Hty as [-> | Hty].
    - rewrite (run_echo _ device) by done. split; [done|].
      cbn [fst]. rewrite new_events_logs by apply trace_set_bytes.
      apply transmissions_echo.
    - rewrite (bool_decide_eq_false_2 (reportType = 0)) by lia.
      destruct (decide (PSYCH_SYSTEM = PSYCH_OSX)) as [Hsys | Hsys].
      + rewrite Hsys.
        destruct (decide (PsychHIDGetDeviceInterfacePtrFromIndex deviceIndex
                          = NULL)) as [Hif | Hif].
        * rewrite (run_osx_bad_interface _ device) by done.
          cbn [fst]. rewrite new_events_same by apply trace_set_bytes.
          cbn zeta. rewrite bool_decide_eq_false_2 by (intros E; by apply E).
          by destruct (argBuffer w).
        * rewrite (run_osx _ device) by done. cbn [fst argBuffer].
          split; [done|]. erewrite new_events_app by reflexivity.
          cbn zeta. rewrite (bool_decide_eq_true_2 (_ <> NULL)) by done.
          by destruct (bool_decide (reportID = 17)).
      + rewrite not_osx by done.
        rewrite (run_hidlib_id _ device) by (done || lia).
        cbn [fst argBuffer]. split; [done|].
        erewrite new_events_app by reflexivity.
        by destruct (bool_decide (reportID = 17)),
             (bool_decide (reportType = 2)). }
  rewrite Hbuf, Htx. repeat split.
  - eexists. split.
    + apply with_reportID_first; [lia | by apply size_in_range_nonempty].
    + apply int_of_uchar_land.
  - apply length_with_reportID.
  - intros i Hi. by apply with_reportID_rest.
Qed.


Lemma scratch_fits w :
  size_in_range w -> scratch_ok w ->
  (length (argBuffer w) < length (scratchBuffer w))%nat.
Proof. unfold size_in_range, scratch_ok. lia. Qed.

(** C2: where the portable HID library is the transport (any system but
    OSX), a call with reportID 0 on a report of n bytes hands the library
    n+1 bytes: a zero byte, then the caller's n bytes; the caller's array
    is left as it was. The call goes to hid_write for report type 2 and
    to hid_send_feature_report for report type 3. *)
Theorem C2_zero_reportID_is_framed deviceIndex device reportType w :
  PSYCH_SYSTEM <> PSYCH_OSX ->
  size_in_range w -> scratch_ok w ->
  reportType = 2 \/ reportType = 3 ->
  device_found deviceIndex device ->
  let w' := (PSYCHHIDSetReport deviceIndex reportType 0 w).1 in
  let sent := Byte.x00 :: argBuffer w in
  let size := Z.of_nat (S (length (argBuffer w))) in
  transmissions (new_events w w') =
    [if bool_decide (reportType = 2)
     then HidWrite (interface device) sent size
     else HidSendFeatureReport (interface device) sent size] /\
  length sent = S (length (argBuffer w)) /\
  argBuffer w' = argBuffer w.
Proof.
  intros Hsys Hsize Hscr Hty Hdev w' sent size. subst w'.
  rewrite (run_hidlib_zero _ device) by auto using scratch_fits.
  cbn [fst argBuffer]. erewrite new_events_app by reflexivity.
  replace size with (Z.of_nat (length (argBuffer w)) + 1) by lia.
  repeat split. by destruct (bool_decide (reportType = 2)).
Qed.

Ltac by_branch device Hty :=
  destruct Hty as [-> | Hty];
  [ rewrite (run_echo _ device) by done
  | destruct (decide (PSYCH_SYSTEM = PSYCH_OSX));
    [ match goal with
      | |- context [PSYCHHIDSetReport ?i _ _ _] =>
          destruct (decide (PsychHIDGetDeviceInterfacePtrFromIndex i = NULL))
      end;
      [ rewrite (run_osx_bad_interface _ device) by done
      | rewrite (run_osx _ device) by done ]
    | match goal with
      | |- context [PSYCHHIDSetReport _ _ ?id _] =>
          destruct (decide (id = 0)) as [? | ?];
          [ subst id;
            rewrite (run_hidlib_zero _ device) by auto using scratch_fits
          | rewrite (run_hidlib_id _ device) by done ]
      end ] ].

Ltac split_on P :=
  let E := fresh "E" in
  destruct (decide P) as [E | E];
  [ rewrite !(bool_decide_eq_true_2 P E)
  | rewrite !(bool_decide_eq_false_2 P E) ].

Ltac settle :=
  repeat split; intros; try tauto; try lia; try reflexivity;
  try congruence; try (exfalso; intuition (lia || congruence)).

(** Every way through the function, each with the equation for it. *)
Ltac all_paths deviceIndex reportType reportID w :=
  let Hsize := fresh "Hsize" in
  let Hfacts := fresh "Hfacts" in
  let Hty := fresh "Hty" in
  let Hinit := fresh "Hinit" in
  let Hdev := fresh "Hdev" in
  let device := fresh "device" in
  destruct (decide (Z.of_nat MAXREPORTSIZE < reportSize_of w));
  [ rewrite path_too_large by done
  | destruct (decide (reportSize_of w < 1));
    [ rewrite path_empty by done
    | assert (size_passes w) as Hsize by (unfold size_passes; lia);
      pose proof (size_passes_facts w Hsize) as Hfacts;
      destruct (decide (reportType = 0 \/ reportType = 2 \/ reportType = 3))
        as [Hty | Hty];
      [ destruct PsychHIDVerifyInit_ok eqn:Hinit;
        [ destruct (PsychHIDGetDeviceRecordPtrFromIndex deviceIndex)
            as [device|] eqn:Hdev;
          [ assert (device_found deviceIndex device) by done;
            destruct Hty as [-> | Hty];
            [ rewrite (path_echo _ device) by done
            | destruct (decide (PSYCH_SYSTEM = PSYCH_OSX));
              [ destruct (decide (PsychHIDGetDeviceInterfacePtrFromIndex
                                    deviceIndex = NULL));
                [ rewrite (path_osx_bad_interface _ device) by done
                | rewrite (path_osx _ device) by done ]
              | destruct (decide (reportID = 0));
                [ subst reportID;
                  destruct (decide (report_count w
                                    < length (scratchBuffer w))%nat);
                  [ rewrite (path_hidlib_zero _ device) by done
                  | rewrite (path_hidlib_zero_short_scratch _ device)
                      by (done || lia) ]
                | rewrite (path_hidlib_id _ device) by done ] ] ]
          | rewrite path_no_device by done ]
        | rewrite path_no_init by done ]
      | rewrite path_bad_type by done ] ] ].

(** C3, as the code has it: a timestamp is captured into AInScanStart
    once per call when reportID is 0x11 and the call reaches a transport
    (report type 2 or 3 and, on OSX, an interface that is not NULL),
    whatever status the transport returns. The echo type 0 captures
    nothing, a call stopped by a NULL interface captures nothing, and no
    other reportID captures anything. *)
Theorem C3_timestamp_once_when_transport_reached
    deviceIndex device reportType reportID w :
  size_in_range w -> scratch_ok w -> type_accepted reportType ->
  device_found deviceIndex device ->
  let w' := (PSYCHHIDSetReport deviceIndex reportType reportID w).1 in
  let iface := PsychHIDGetDeviceInterfacePtrFromIndex deviceIndex in
  (reportID = 17 -> reportType <> 0 ->
   (PSYCH_SYSTEM = PSYCH_OSX -> iface <> NULL) ->
   captures (new_events w w') = 1%nat
   /\ AInScanStart w' = PsychGetPrecisionTimerSeconds) /\
  (reportType = 0 \/ (PSYCH_SYSTEM = PSYCH_OSX /\ iface = NULL) ->
   captures (new_events w w') = 0%nat
   /\ AInScanStart w' = AInScanStart w) /\
  (reportID <> 17 ->
   captures (new_events w w') = 0%nat
   /\ AInScanStart w' = AInScanStart w).
Proof.
  intros Hsize Hscr Hty Hdev w' iface. subst w' iface.
  by_branch device Hty; cbn [fst AInScanStart].
  - rewrite new_events_logs by apply trace_set_bytes.
    rewrite captures_echo, (proj1 (AInScanStart_kept _ _ _ _)).
    repeat split; intros; done.
  - rewrite new_events_same by apply trace_set_bytes.
    rewrite (proj2 (AInScanStart_kept [] _ _ _)).
    repeat split; intros; tauto.
  - erewrite new_events_app by reflexivity.
    split_on (reportID = 17); settle.
  - erewrite new_events_app by reflexivity.
    destruct (bool_decide (reportType = 2)); settle.
  - erewrite new_events_app by reflexivity.
    split_on (reportID = 17); destruct (bool_decide (reportType = 2));
      settle.
Qed.


(** C4, where the code departs from it: the two size checks look at the
    [int] reportSize, not at the number of bytes. A report of 2^32+1 bytes,
    longer than MAXREPORTSIZE, has reportSize 1: neither size check stops
    it, and as an output report with reportID 0 on the portable HID
    library the call returns after handing the library the report's first
    byte behind the framing byte. *)
Theorem C4_oversize_report_passes_size_checks deviceIndex device w :
  length (argBuffer w) = Z.to_nat 4294967297 ->
  (1 <= MAXREPORTSIZE < length (argBuffer w))%nat ->
  PSYCH_SYSTEM <> PSYCH_OSX -> scratch_ok w ->
  device_found deviceIndex device ->
  let r := PSYCHHIDSetReport deviceIndex 2 0 w in
  reportSize_of w = 1 /\
  r.2 <> Exited SizeError /\
  (exists outErr, r.2 = Returned outErr) /\
  transmissions (new_events w r.1) =
    [HidWrite (interface device) (Byte.x00 :: take 1 (argBuffer w)) 2].
Proof.
  intros Hlen Hmax Hsys Hscr Hdev r. subst r.
  assert (reportSize_of w = 1) as Hrs.
  { unfold reportSize_of. rewrite Hlen, Z2Nat.id by lia. reflexivity. }
  assert (report_count w = 1%nat) as Hk
    by (unfold report_count; by rewrite Hrs).
  assert (size_passes w) as Hsize by (unfold size_passes; lia).
  rewrite (path_hidlib_zero _ device)
    by (try done; unfold scratch_ok in Hscr; lia || by left).
  cbn [fst snd]. erewrite new_events_app by reflexivity.
  rewrite Hrs, Hk. repeat split; [discriminate | eauto].
Qed.

(** C5: a reportType other than 0, 2 and 3 (so 1, every negative number
    and everything above 3) stops the call at validation with nothing
    changed and no transport called: with InvalidTypeError when the
    report's size is admitted, and with one of the two size errors
    otherwise. With reportType 0, 2 or 3 the call is never stopped by
    InvalidTypeError. *)
Theorem C5_type_check deviceIndex reportType reportID w :
  let r := PSYCHHIDSetReport deviceIndex reportType reportID w in
  (reportType = 1 \/ reportType < 0 \/ reportType > 3 ->
   ~ type_accepted reportType) /\
  (~ type_accepted reportType ->
   (size_in_range w -> r = (w, Exited InvalidTypeError)) /\
   r.1 = w /\ transmissions (new_events w r.1) = [] /\
   (r.2 = Exited InvalidTypeError \/ r.2 = Exited SizeError
    \/ r.2 = Exited EmptyReportError)) /\
  (type_accepted reportType -> r.2 <> Exited InvalidTypeError).
Proof.
  intros r. subst r. split; [|split].
  - unfold type_accepted. lia.
  - intros Hbad. split; [intros; by apply run_bad_type|].
    assert (new_events w w = []) as Hnone by by apply new_events_same.
    all_paths deviceIndex reportType reportID w; cbn [fst snd];
      try (exfalso; apply Hbad; unfold type_accepted; lia);
      rewrite ?Hnone; auto.
  - intros Hok.
    all_paths deviceIndex reportType reportID w; cbn [snd];
      first [discriminate | exfalso; unfold type_accepted in *; tauto].
Qed.

(** C6: with reportType 0 the call returns code 0 with empty name and
    description and calls no transport on either system; all it lets be
    observed is the printed line: the header with reportType and
    reportID, every byte of the report, and the closing text. *)
Theorem C6_echo_only_prints deviceIndex device reportID w :
  size_in_range w -> device_found deviceIndex device ->
  let r := PSYCHHIDSetReport deviceIndex 0 reportID w in
  r.2 = Returned {| n := 0; name := ""; description := "" |} /\
  transmissions (new_events w r.1) = [] /\
  new_events w r.1 = echo_output 0 reportID (argBuffer r.1) /\
  length (new_events w r.1) = S (S (length (argBuffer w))) /\
  scratchBuffer r.1 = scratchBuffer w /\
  AInScanStart r.1 = AInScanStart w.
Proof.
  intros Hsize Hdev r. subst r. rewrite (run_echo _ device) by done.
  cbn [fst snd]. rewrite new_events_logs by apply trace_set_bytes.
  repeat split.
  - apply transmissions_echo.
  - unfold echo_output. simpl.
    rewrite length_app, length_map, length_with_reportID. simpl. lia.
Qed.

(** C7: where the portable HID library is the transport, a negative
    return value of the write is kept as the error code, and every
    return value that is not negative becomes 0; the error lookup is
    called with the code so obtained, which is also the n returned. *)
Theorem C7_status_normalised deviceIndex device reportType reportID w :
  PSYCH_SYSTEM <> PSYCH_OSX ->
  size_in_range w -> scratch_ok w ->
  reportType = 2 \/ reportType = 3 ->
  device_found deviceIndex device ->
  let r := PSYCHHIDSetReport deviceIndex reportType reportID w in
  let dev := interface device in
  let sent :=
    if bool_decide (reportID = 0) then Byte.x00 :: argBuffer w
    else argBuffer r.1 in
  let size := Z.of_nat (length sent) in
  let status :=
    if bool_decide (reportType = 2) then hid_write dev sent size
    else hid_send_feature_report dev sent size in
  let error := if bool_decide (status < 0) then status else 0 in
  r.2 = Returned {| n := error;
                    name := (PsychHIDErrors dev error).1;
                    description := (PsychHIDErrors dev error).2 |} /\
  List.filter (fun e => match e with HIDErrors _ _ => true | _ => false end)
    (new_events w r.1) = [HIDErrors dev error] /\
  (status < 0 -> error = status) /\
  (0 <= status -> error = 0).
Proof.
  intros Hsys Hsize Hscr Hty Hdev r dev sent size status error.
  assert (forall z : Z,
            (if bool_decide (z >= 0) then 0 else z)
            = (if bool_decide (z < 0) then z else 0)) as Hnorm.
  { intros z. repeat case_bool_decide; lia. }
  subst r error status size sent dev.
  destruct (decide (reportID = 0)) as [-> | Hid].
  - rewrite (run_hidlib_zero _ device) by auto using scratch_fits.
    cbn [fst snd argBuffer]. erewrite new_events_app by reflexivity.
    rewrite Hnorm. cbn [bool_decide decide_rel decide]. simpl length.
    replace (Z.of_nat (S (length (argBuffer w))))
      with (Z.of_nat (length (argBuffer w)) + 1) by lia.
    repeat split.
    + by destruct (bool_decide (reportType = 2)).
    + intros H. by rewrite bool_decide_eq_true_2.
    + intros H. by rewrite bool_decide_eq_false_2 by lia.
  - rewrite (run_hidlib_id _ device) by done.
    cbn [fst snd argBuffer]. erewrite new_events_app by reflexivity.
    rewrite Hnorm, (bool_decide_eq_false_2 (reportID = 0)) by done.
    rewrite length_with_reportID.
    repeat split.
    + by destruct (bool_decide (reportType = 2)),
           (bool_decide (reportID = 17)).
    + intros H. by rewrite bool_decide_eq_true_2.
    + intros H. by rewrite bool_decide_eq_false_2 by lia.
Qed.


(** C8: on OSX, a call with report type 2 or 3 and an interface that is
    not NULL calls the interface's setReport exactly once, with report
    type reportType-1, the reportID as given, the caller's array as it
    stands after the reportID was put in, the report's length, and a
    timeout of 50 ms. *)
Theorem C8_osx_setReport_once deviceIndex device reportType reportID w :
  PSYCH_SYSTEM = PSYCH_OSX ->
  size_in_range w -> reportType = 2 \/ reportType = 3 ->
  device_found deviceIndex device ->
  PsychHIDGetDeviceInterfacePtrFromIndex deviceIndex <> NULL ->
  let w' := (PSYCHHIDSetReport deviceIndex reportType reportID w).1 in
  let iface := PsychHIDGetDeviceInterfacePtrFromIndex deviceIndex in
  transmissions (new_events w w') =
    [SetReport iface (reportType - 1) reportID (argBuffer w')
       (Z.of_nat (length (argBuffer w))) 50] /\
  argBuffer w' = with_reportID reportID (argBuffer w) /\
  length (argBuffer w') = length (argBuffer w).
Proof.
  intros Hsys Hsize Hty Hdev Hif w' iface. subst w' iface.
  rewrite (run_osx _ device) by done. cbn [fst argBuffer].
  erewrite new_events_app by reflexivity.
  repeat split.
  - by destruct (bool_decide (reportID = 17)).
  - apply length_with_reportID.
Qed.

(** C9: the reportID is not range-checked. A call whose report is in
    range and whose reportType is accepted is never stopped at validation,
    whatever the reportID; and every reportID other than 0, whatever its
    size or sign, has its low byte written over the report's first byte,
    also when that low byte is 0, and is sent by the portable HID library
    from the caller's array at the report's own length, the scratch array
    untouched. *)
Theorem C9_reportID_not_range_checked
    deviceIndex device reportType reportID w :
  let r := PSYCHHIDSetReport deviceIndex reportType reportID w in
  ((exists e msg, r.2 = Exited (ErrorExitMsg e msg))
   -> ~ (size_in_range w /\ type_accepted reportType)) /\
  (reportID <> 0 ->
   size_in_range w -> type_accepted reportType ->
   device_found deviceIndex device ->
   argBuffer r.1 = <[0%nat := uchar (Z.land 255 reportID)]> (argBuffer w) /\
   (exists b, argBuffer r.1 !! 0%nat = Some b
              /\ int_of_uchar b = Z.land reportID 255) /\
   scratchBuffer r.1 = scratchBuffer w /\
   (PSYCH_SYSTEM <> PSYCH_OSX -> reportType <> 0 ->
    transmissions (new_events w r.1) =
      [if bool_decide (reportType = 2)
       then HidWrite (interface device) (argBuffer r.1)
              (Z.of_nat (length (argBuffer w)))
       else HidSendFeatureReport (interface device) (argBuffer r.1)
              (Z.of_nat (length (argBuffer w)))])).
Proof.
  intros r. subst r. split.
  - intros (e & msg & Hexit) [Hsize Hty]. revert Hexit.
    destruct (size_in_range_passes w Hsize) as (Hp & Hrs & Hk).
    all_paths deviceIndex reportType reportID w; cbn [snd];
      intros Hexit;
      first [discriminate | unfold size_passes in *; lia | tauto].
  - intros Hid Hsize Hty Hdev.
    assert (with_reportID reportID (argBuffer w)
            = <[0%nat := uchar (Z.land 255 reportID)]> (argBuffer w)) as Hw
      by (unfold with_reportID; by rewrite bool_decide_eq_true_2).
    assert (exists b,
              with_reportID reportID (argBuffer w) !! 0%nat = Some b
              /\ int_of_uchar b = Z.land reportID 255) as Hfirst.
    { eexists. split.
      - apply with_reportID_first; [done | by apply size_in_range_nonempty].
      - apply int_of_uchar_land. }
    destruct Hty as [-> | Hty].
    + rewrite (run_echo _ device) by done. cbn [fst].
      repeat split; done.
    + destruct (decide (PSYCH_SYSTEM = PSYCH_OSX)).
      * destruct (decide (PsychHIDGetDeviceInterfacePtrFromIndex deviceIndex
                          = NULL)).
        -- rewrite (run_osx_bad_interface _ device) by done. cbn [fst].
           repeat split; done.
        -- rewrite (run_osx _ device) by done.
           cbn [fst argBuffer scratchBuffer]. repeat split; done.
      * rewrite (run_hidlib_id _ device) by done.
        cbn [fst argBuffer scratchBuffer]. repeat split; try done.
        intros _ _. erewrite new_events_app by reflexivity.
        by destruct (bool_decide (reportType = 2)),
             (bool_decide (reportID = 17)).
Qed.

Lemma scratch_ok_set_arg es l w :
  scratch_ok w -> scratch_ok (logs es (set_bytes w ArgArray l))
                  /\ scratch_ok (set_bytes w ArgArray l).
Proof. done. Qed.

(** C10: with the scratch array at its declared MAXREPORTSIZE+1 bytes
    and a report of at most MAXREPORTSIZE bytes, the framing copy to
    index 1 ends inside the scratch array; so no call, whatever its
    arguments, reads or writes outside an array, and the scratch array
    keeps its size. *)
Theorem C10_framing_copy_in_bounds deviceIndex reportType reportID w :
  scratch_ok w ->
  let r := PSYCHHIDSetReport deviceIndex reportType reportID w in
  ((length (argBuffer w) <= MAXREPORTSIZE)%nat ->
   (1 + length (argBuffer w) <= length (scratchBuffer w))%nat /\
   exists w1,
     memcpy (Ptr ScratchArray 1) (Ptr ArgArray 0) (length (argBuffer w)) w
     = (w1, Returned tt)
     /\ scratch_ok w1 /\ argBuffer w1 = argBuffer w) /\
  r.2 <> Fault /\
  scratch_ok r.1.
Proof.
  intros Hscr r. subst r. split; [|split].
  - intros Hlen. unfold scratch_ok in Hscr. split; [lia|].
    eexists. split; [apply memcpy_into_scratch; lia|].
    split; [|done]. unfold scratch_ok. cbn [set_bytes scratchBuffer].
    rewrite !length_app, !length_take, length_drop, Hscr.
    rewrite !Nat.min_l by lia. lia.
  - all_paths deviceIndex reportType reportID w; cbn [snd];
      first [discriminate | unfold scratch_ok in *; lia].
  - all_paths deviceIndex reportType reportID w; cbn [fst];
      try done;
      try (by apply scratch_ok_set_arg);
      try (unfold scratch_ok in *; lia).
    unfold scratch_ok in *. cbn [scratchBuffer].
    rewrite length_app, length_drop. cbn [length].
    rewrite length_take, Nat.min_l by lia. lia.
Qed.


(** ** Further properties of a call *)

(** X1: when PsychHIDVerifyInit aborts or the index names no device, the
    call is left from that callee before anything was written: not even a
    nonzero reportID has reached the caller's array, and an echo call has
    printed nothing. *)
Theorem X1_failed_lookup_changes_nothing deviceIndex reportType reportID w :
  size_in_range w -> type_accepted reportType ->
  PsychHIDVerifyInit_ok = false
  \/ PsychHIDGetDeviceRecordPtrFromIndex deviceIndex = None ->
  let r := PSYCHHIDSetReport deviceIndex reportType reportID w in
  r.1 = w /\ exists callee, r.2 = Exited (ExitFrom callee).
Proof.
  intros Hsize Hty Hfail r. subst r.
  destruct PsychHIDVerifyInit_ok eqn:Hinit.
  - destruct Hfail as [? | Hdev]; [done|].
    rewrite run_no_device by done. eauto.
  - rewrite run_no_init by done. eauto.
Qed.

(** X2: on OSX a NULL interface ends a call of type 2 or 3 through
    PrintfExit, after the reportID was written: the caller's array keeps
    the new first byte, while no transport, no timestamp capture and no
    error lookup has taken place. *)
Theorem X2_osx_null_interface_exits_after_ID_write
    deviceIndex device reportType reportID w :
  PSYCH_SYSTEM = PSYCH_OSX ->
  size_in_range w -> reportType = 2 \/ reportType = 3 ->
  device_found deviceIndex device ->
  PsychHIDGetDeviceInterfacePtrFromIndex deviceIndex = NULL ->
  let r := PSYCHHIDSetReport deviceIndex reportType reportID w in
  r.2 = Exited (PrintfExit bad_interface_msg) /\
  new_events w r.1 = [] /\
  AInScanStart r.1 = AInScanStart w /\
  scratchBuffer r.1 = scratchBuffer w /\
  argBuffer r.1 = with_reportID reportID (argBuffer w) /\
  (reportID <> 0 ->
   argBuffer r.1 !! 0%nat = Some (uchar (Z.land 255 reportID))).
Proof.
  intros Hsys Hsize Hty Hdev Hif r. subst r.
  rewrite (run_osx_bad_interface _ device) by done. cbn [fst snd].
  rewrite new_events_same by apply trace_set_bytes.
  repeat split; try done.
  intros Hid. apply with_reportID_first; [done | by apply size_in_range_nonempty].
Qed.

(** X3: on OSX the status that setReport returns is passed on as it is,
    positive values included: it is the n of the result and the code given
    to the error lookup, which is called once, with a NULL device. *)
Theorem X3_osx_status_passed_on_raw
    deviceIndex device reportType reportID w :
  PSYCH_SYSTEM = PSYCH_OSX ->
  size_in_range w -> reportType = 2 \/ reportType = 3 ->
  device_found deviceIndex device ->
  PsychHIDGetDeviceInterfacePtrFromIndex deviceIndex <> NULL ->
  let r := PSYCHHIDSetReport deviceIndex reportType reportID w in
  let status :=
    setReport (PsychHIDGetDeviceInterfacePtrFromIndex deviceIndex)
      (reportType - 1) reportID (with_reportID reportID (argBuffer w))
      (Z.of_nat (length (argBuffer w))) 50 in
  r.2 = Returned {| n := status;
                    name := (PsychHIDErrors NULL status).1;
                    description := (PsychHIDErrors NULL status).2 |} /\
  List.filter is_error_lookup (new_events w r.1) = [HIDErrors NULL status].
Proof.
  intros Hsys Hsize Hty Hdev Hif r status. subst r status.
  rewrite (run_osx _ device) by done. cbn [fst snd].
  erewrite new_events_app by reflexivity.
  split; [done|]. by destruct (bool_decide (reportID = 17)).
Qed.

(** X4: a call of type 2 or 3 that reaches its transport does three things
    in this order: the transport call, then the timestamp capture when
    reportID is 0x11, then one error lookup with the code it returns. The
    timestamp is therefore taken after the transport call has come back. *)
Theorem X4_transport_then_timestamp_then_lookup
    deviceIndex device reportType reportID w :
  size_in_range w -> scratch_ok w -> reportType = 2 \/ reportType = 3 ->
  device_found deviceIndex device ->
  (PSYCH_SYSTEM = PSYCH_OSX ->
   PsychHIDGetDeviceInterfacePtrFromIndex deviceIndex <> NULL) ->
  let r := PSYCHHIDSetReport deviceIndex reportType reportID w in
  exists tx dev outErr,
    is_transport tx = true /\
    r.2 = Returned outErr /\
    new_events w r.1 =
      tx :: (if bool_decide (reportID = 17)
             then [GetPrecisionTimerSeconds] else [])
      ++ [HIDErrors dev (n outErr)].
Proof.
  intros Hsize Hscr Hty Hdev Hif r. subst r.
  destruct (decide (PSYCH_SYSTEM = PSYCH_OSX)) as [Hsys | Hsys].
  - rewrite (run_osx _ device) by auto. cbn [fst snd].
    erewrite new_events_app by reflexivity.
    by refine (ex_intro _ _ (ex_intro _ _ (ex_intro _ _
              (conj _ (conj eq_refl eq_refl))))).
  - destruct (decide (reportID = 0)) as [-> | Hid].
    + rewrite (run_hidlib_zero _ device) by auto using scratch_fits.
      cbn [fst snd]. erewrite new_events_app by reflexivity.
      destruct (bool_decide (reportType = 2));
        by refine (ex_intro _ _ (ex_intro _ _ (ex_intro _ _
                  (conj _ (conj eq_refl eq_refl))))).
    + rewrite (run_hidlib_id _ device) by done. cbn [fst snd].
      erewrite new_events_app by reflexivity.
      destruct (bool_decide (reportType = 2));
        by refine (ex_intro _ _ (ex_intro _ _ (ex_intro _ _
                  (conj _ (conj eq_refl eq_refl))))).
Qed.

Lemma with_reportID_zero report : with_reportID 0 report = report.
Proof. reflexivity. Qed.

Lemma new_events_none w : new_events w w = [].
Proof. by apply new_events_same. Qed.

(** The caller's array after a call, whatever the call did. *)
Lemma argBuffer_after deviceIndex reportType reportID w :
  let r := PSYCHHIDSetReport deviceIndex reportType reportID w in
  argBuffer r.1 = argBuffer w
  \/ (argBuffer w <> []
      /\ argBuffer r.1 = with_reportID reportID (argBuffer w)).
Proof.
  intros r. subst r.
  all_paths deviceIndex reportType reportID w; cbn [fst argBuffer];
    first [ by left
          | right; split; [by apply size_passes_facts | done] ].
Qed.

(** X5: no call, whatever its arguments and however it ends, changes the
    length of the caller's array or any of its bytes other than the first;
    with reportID 0 the array is left exactly as it was, on every system;
    and a first byte that did change holds the low byte of reportID. *)
Theorem X5_only_the_first_byte_is_ever_written
    deviceIndex reportType reportID w :
  let r := PSYCHHIDSetReport deviceIndex reportType reportID w in
  length (argBuffer r.1) = length (argBuffer w) /\
  (forall i : nat, (1 <= i)%nat -> argBuffer r.1 !! i = argBuffer w !! i) /\
  (reportID = 0 -> argBuffer r.1 = argBuffer w) /\
  (argBuffer r.1 <> argBuffer w ->
   exists b, argBuffer r.1 !! 0%nat = Some b
             /\ int_of_uchar b = Z.land reportID 255).
Proof.
  intros r.
  destruct (argBuffer_after deviceIndex reportType reportID w)
    as [Hsame | [Hne Hnew]]; fold r in Hsame || fold r in Hnew.
  - rewrite Hsame. repeat split; done.
  - rewrite Hnew. repeat split.
    + apply length_with_reportID.
    + intros i Hi. by apply with_reportID_rest.
    + intros ->. apply with_reportID_zero.
    + intros Hchanged.
      assert (reportID <> 0) as Hid
        by (intros ->; by rewrite with_reportID_zero in Hchanged).
      eexists. split; [by apply with_reportID_first|].
      apply int_of_uchar_land.
Qed.

(** The transport calls of one call: none, or one whose length argument
    is the number of bytes handed over, between 1 and MAXREPORTSIZE+1. *)
Ltac size_facts :=
  match goal with
  | H : _ /\ _ /\ _ /\ reportSize_of _ = _ |- _ =>
      destruct H as (Hne & Hk & Hkle & Hrs)
  end.

Lemma transmissions_of_call deviceIndex reportType reportID w :
  let r := PSYCHHIDSetReport deviceIndex reportType reportID w in
  transmissions (new_events w r.1) = []
  \/ exists tx data,
       transmissions (new_events w r.1) = [tx]
       /\ payload tx = Some (data, Z.of_nat (length data))
       /\ (1 <= length data <= S MAXREPORTSIZE)%nat
       /\ (reportType = 2 \/ reportType = 3).
Proof.
  intros r. subst r.
  all_paths deviceIndex reportType reportID w; cbn [fst];
    rewrite ?new_events_none, ?new_events_same by apply trace_set_bytes;
    rewrite ?new_events_logs by apply trace_set_bytes;
    rewrite ?transmissions_echo;
    try (by left);
    right; erewrite new_events_app by reflexivity;
    size_facts.
  - eexists _, (take (report_count w) (with_reportID reportID (argBuffer w))).
    split; [by destruct (bool_decide (reportID = 17))|].
    cbn [payload].
    rewrite length_take_le by (rewrite length_with_reportID; lia).
    rewrite Hrs. repeat split; (done || lia).
  - destruct (bool_decide (reportType = 2));
      eexists _, (Byte.x00 :: take (report_count w) (argBuffer w));
      (split; [done|]); cbn [payload length];
      rewrite length_take_le by lia; rewrite Hrs;
      (split; [do 2 f_equal; lia|]); split; (done || lia).
  - destruct (bool_decide (reportType = 2)),
      (bool_decide (reportID = 17));
      eexists _, (take (report_count w) (with_reportID reportID (argBuffer w)));
      (split; [done|]); cbn [payload];
      rewrite length_take_le by (rewrite length_with_reportID; lia);
      rewrite Hrs; repeat split; (done || lia).
Qed.

(** X6: no call, whatever its arguments, calls a transport more than once,
    and the one call it may make is never handed an empty buffer nor more
    than MAXREPORTSIZE+1 bytes; its length argument is exactly the number
    of bytes handed over. Only report types 2 and 3 reach a transport. *)
Theorem X6_at_most_one_bounded_transmission
    deviceIndex reportType reportID w :
  let r := PSYCHHIDSetReport deviceIndex reportType reportID w in
  let sent := transmissions (new_events w r.1) in
  (length sent <= 1)%nat /\
  (sent <> [] -> reportType = 2 \/ reportType = 3) /\
  Forall (fun tx => exists data,
            payload tx = Some (data, Z.of_nat (length data))
            /\ (1 <= length data <= S MAXREPORTSIZE)%nat) sent.
Proof.
  intros r sent.
  destruct (transmissions_of_call deviceIndex reportType reportID w)
    as [Hnone | (tx & data & Hone & Hpay & Hlen & Hty)];
    fold r in Hnone || fold r in Hone; subst sent.
  - rewrite Hnone. split; [simpl; lia|]. split; [done | constructor].
  - rewrite Hone. split; [simpl; lia|]. split; [done|].
    apply Forall_singleton. eauto.
Qed.

(** X7: the static scratch array is written only by the framing step of
    the portable HID library branch: on OSX, with a reportID other than
    0, or with a report type other than 2 and 3, a call leaves it as it
    was. And no call changes a scratch byte at an index above the
    report's length: what an earlier, longer report left there stays. *)
Theorem X7_scratch_written_only_by_framing
    deviceIndex reportType reportID w :
  let r := PSYCHHIDSetReport deviceIndex reportType reportID w in
  (PSYCH_SYSTEM = PSYCH_OSX \/ reportID <> 0
   \/ ~ (reportType = 2 \/ reportType = 3) ->
   scratchBuffer r.1 = scratchBuffer w) /\
  (forall i : nat, (length (argBuffer w) < i)%nat ->
     scratchBuffer r.1 !! i = scratchBuffer w !! i).
Proof.
  intros r. subst r.
  all_paths deviceIndex reportType reportID w;
    cbn [fst scratchBuffer]; (split; [try done|]); try done.
  - intros [? | [? | ?]]; (done || lia || tauto).
  - intros i Hi. size_facts.
    assert (length (Byte.x00 :: take (report_count w) (argBuffer w))
            = S (report_count w)) as Hsent
      by (cbn [length]; by rewrite length_take_le by lia).
    rewrite lookup_app_r by (rewrite Hsent; lia).
    rewrite lookup_drop, Hsent. f_equal. lia.
Qed.

(** X8: no call captures more than one timestamp, and AInScanStart is
    either left as it was or set to the clock reading; the latter happens
    only in a call with reportID 0x11 that called its transport. *)
Theorem X8_AInScanStart_changes_only_with_0x11
    deviceIndex reportType reportID w :
  let r := PSYCHHIDSetReport deviceIndex reportType reportID w in
  (captures (new_events w r.1) <= 1)%nat /\
  (AInScanStart r.1 = AInScanStart w /\ captures (new_events w r.1) = 0%nat
   \/ reportID = 17
      /\ AInScanStart r.1 = PsychGetPrecisionTimerSeconds
      /\ captures (new_events w r.1) = 1%nat
      /\ length (transmissions (new_events w r.1)) = 1%nat).
Proof.
  intros r. subst r.
  all_paths deviceIndex reportType reportID w; cbn [fst AInScanStart];
    rewrite ?new_events_none, ?new_events_same by apply trace_set_bytes;
    rewrite ?new_events_logs by apply trace_set_bytes;
    rewrite ?captures_echo, ?transmissions_echo;
    rewrite ?(proj1 (AInScanStart_kept _ _ _ _));
    rewrite ?(proj2 (AInScanStart_kept [] _ _ _));
    try (split; [unfold captures; simpl; lia | by left]);
    erewrite new_events_app by reflexivity.
  - split_on (reportID = 17); (split; [unfold captures; simpl; lia|]); [right | left]; done.
  - destruct (bool_decide (reportType = 2)); (split; [unfold captures; simpl; lia|]);
      left; done.
  - split_on (reportID = 17); destruct (bool_decide (reportType = 2));
      (split; [unfold captures; simpl; lia|]); first [by right | by left].
Qed.

(** The same call in a second state that holds the same report. *)
Ltac side Hrs Hk :=
  unfold size_passes, scratch_ok in *; rewrite ?Hrs, ?Hk;
  first [eassumption | lia | done].

Ltac same_path w' Hrs Hk :=
  first
    [ rewrite (path_too_large _ _ _ w') by side Hrs Hk
    | rewrite (path_empty _ _ _ w') by side Hrs Hk
    | rewrite (path_bad_type _ _ _ w') by side Hrs Hk
    | rewrite (path_no_init _ _ _ w') by side Hrs Hk
    | rewrite (path_no_device _ _ _ w') by side Hrs Hk
    | erewrite (path_echo _ _ _ w') by side Hrs Hk
    | erewrite (path_osx_bad_interface _ _ _ _ w') by side Hrs Hk
    | erewrite (path_osx _ _ _ _ w') by side Hrs Hk
    | erewrite (path_hidlib_zero _ _ _ w') by side Hrs Hk
    | erewrite (path_hidlib_id _ _ _ _ w') by side Hrs Hk ].

Ltac events_of_both :=
  repeat first
    [ rewrite new_events_none
    | rewrite new_events_same by apply trace_set_bytes
    | rewrite new_events_logs by apply trace_set_bytes
    | erewrite new_events_app by reflexivity ].

(** X9: what a call sends, prints and returns does not depend on what the
    scratch array, AInScanStart or the earlier trace hold: in two states
    with the same report (and the scratch array at its declared size) the
    same call has the same outcome, adds the same events and leaves the
    same bytes in the caller's array. Bytes that an earlier report left in
    the scratch array are never sent. *)
Theorem X9_call_independent_of_scratch_contents
    deviceIndex reportType reportID w w' :
  scratch_ok w -> scratch_ok w' -> argBuffer w' = argBuffer w ->
  let r := PSYCHHIDSetReport deviceIndex reportType reportID w in
  let r' := PSYCHHIDSetReport deviceIndex reportType reportID w' in
  r'.2 = r.2 /\
  new_events w' r'.1 = new_events w r.1 /\
  argBuffer r'.1 = argBuffer r.1.
Proof.
  intros Hscr Hscr' Harg r r'. subst r.
  assert (reportSize_of w' = reportSize_of w) as Hrs'
    by (unfold reportSize_of; by rewrite Harg).
  assert (report_count w' = report_count w) as Hk'
    by (unfold report_count; by rewrite Hrs').
  remember r' as q eqn:Hq. subst r'.
  all_paths deviceIndex reportType reportID w;
    try (exfalso; unfold scratch_ok in *; lia);
    subst q; same_path w' Hrs' Hk';
    cbn [fst snd argBuffer]; rewrite ?Harg, ?Hrs', ?Hk'; events_of_both;
    done.
Qed.

Lemma call_stays_in_arrays deviceIndex reportType reportID w :
  scratch_ok w ->
  let r := PSYCHHIDSetReport deviceIndex reportType reportID w in
  r.2 <> Fault /\ scratch_ok r.1.
Proof.
  intros Hscr r. subst r.
  all_paths deviceIndex reportType reportID w; cbn [fst snd];
    try (exfalso; unfold scratch_ok in *; lia);
    (split; [discriminate|]);
    try done; try (by apply scratch_ok_set_arg).
  unfold scratch_ok in *. cbn [scratchBuffer].
  rewrite length_app, length_drop. cbn [length].
  rewrite length_take, Nat.min_l by lia. lia.
Qed.

(** X10: in a sequence of calls, each on its own report and with any
    arguments, starting with the scratch array at its declared size, no
    call reads or writes outside an array and the scratch array has its
    declared size after the last one; every call has an outcome, also
    those after a call that left through the error exit. *)
Theorem X10_session_stays_in_arrays (cs : list Call) w :
  scratch_ok w ->
  let r := session cs w in
  scratch_ok r.1 /\
  length r.2 = length cs /\
  Forall (fun outcome => outcome <> Fault) r.2.
Proof.
  revert w. induction cs as [|c cs IH]; intros w Hscr.
  - split; [done|]. split; [done | constructor].
  - cbn [session fst snd].
    assert (scratch_ok (set_bytes w ArgArray (call_report c))) as Hscr0
      by done.
    destruct (call_stays_in_arrays (call_deviceIndex c) (call_reportType c)
                (call_reportID c) _ Hscr0) as [Hnofault Hscr1].
    fold (invoke c w) in Hnofault, Hscr1.
    destruct (IH _ Hscr1) as (Hscr2 & Hlen & Hall).
    split; [done|]. split; [simpl; by rewrite Hlen | by constructor].
Qed.

Lemma land_255_mod (z : Z) : Z.land 255 z = z mod 256.
Proof.
  rewrite Z.land_comm. change 255 with (Z.ones 8).
  by rewrite Z.land_ones by lia.
Qed.

(** X11: the portable HID library is sent only the low byte of the
    reportID. Two calls whose nonzero reportIDs agree modulo 256 (17 and
    273, say) leave the same bytes in the caller's array and hand the
    library the same bytes. *)
Theorem X11_only_low_byte_of_reportID_is_sent
    deviceIndex device reportType reportID reportID' w :
  PSYCH_SYSTEM <> PSYCH_OSX ->
  size_in_range w -> reportType = 2 \/ reportType = 3 ->
  device_found deviceIndex device ->
  reportID <> 0 -> reportID' <> 0 ->
  reportID mod 256 = reportID' mod 256 ->
  let r := PSYCHHIDSetReport deviceIndex reportType reportID w in
  let r' := PSYCHHIDSetReport deviceIndex reportType reportID' w in
  argBuffer r'.1 = argBuffer r.1 /\
  transmissions (new_events w r'.1) = transmissions (new_events w r.1).
Proof.
  intros Hsys Hsize Hty Hdev Hid Hid' Hmod r r'. subst r r'.
  assert (with_reportID reportID' (argBuffer w)
          = with_reportID reportID (argBuffer w)) as Hsame.
  { unfold with_reportID. rewrite !bool_decide_eq_true_2 by done.
    by rewrite !land_255_mod, Hmod. }
  rewrite (run_hidlib_id deviceIndex device reportType reportID w) by done.
  rewrite (run_hidlib_id deviceIndex device reportType reportID' w) by done.
  cbn [fst argBuffer]. split; [done|].
  do 2 erewrite new_events_app by reflexivity.
  rewrite Hsame.
  by destruct (bool_decide (reportType = 2)),
       (bool_decide (reportID = 17)), (bool_decide (reportID' = 17)).
Qed.

Lemma with_reportID_twice reportID report :
  with_reportID reportID (with_reportID reportID report)
  = with_reportID reportID report.
Proof.
  unfold with_reportID. case_bool_decide; [|done].
  apply list_insert_insert_eq.
Qed.

(** The state a call leaves when it got past its checks and the lookup. *)
Lemma state_after_call deviceIndex device reportType reportID w :
  size_in_range w -> scratch_ok w -> type_accepted reportType ->
  device_found deviceIndex device ->
  let r := PSYCHHIDSetReport deviceIndex reportType reportID w in
  scratch_ok r.1
  /\ argBuffer r.1 = with_reportID reportID (argBuffer w).
Proof.
  intros Hsize Hscr Hty Hdev r. subst r.
  split; [by apply call_stays_in_arrays|].
  by_branch device Hty; done.
Qed.

Ltac side_resend Harg :=
  unfold size_in_range, scratch_ok in *;
  rewrite ?Harg, ?length_with_reportID;
  first [eassumption | lia | done].

Lemma resend_core deviceIndex device reportType reportID w w1 :
  size_in_range w -> scratch_ok w -> scratch_ok w1 ->
  type_accepted reportType -> device_found deviceIndex device ->
  argBuffer w1 = with_reportID reportID (argBuffer w) ->
  let r := PSYCHHIDSetReport deviceIndex reportType reportID w in
  let r1 := PSYCHHIDSetReport deviceIndex reportType reportID w1 in
  argBuffer r1.1 = argBuffer r.1 /\
  transmissions (new_events w1 r1.1) = transmissions (new_events w r.1).
Proof.
  intros Hsize Hscr Hscr1 Hty Hdev Harg r r1. subst r.
  remember r1 as q eqn:Hq. subst r1.
  by_branch device Hty; subst q.
  - erewrite (run_echo _ _ _ w1) by side_resend Harg.
    cbn [fst argBuffer]. rewrite Harg, with_reportID_twice.
    split; [done|]. events_of_both. by rewrite !transmissions_echo.
  - erewrite (run_osx_bad_interface _ _ _ _ w1) by side_resend Harg.
    cbn [fst argBuffer]. rewrite Harg, with_reportID_twice.
    split; [done|]. by events_of_both.
  - erewrite (run_osx _ _ _ _ w1) by side_resend Harg.
    cbn [fst argBuffer]. rewrite Harg, with_reportID_twice, length_with_reportID.
    split; [done|]. events_of_both.
    by destruct (bool_decide (reportID = 17)).
  - erewrite (run_hidlib_zero _ _ _ w1) by side_resend Harg.
    cbn [fst argBuffer]. rewrite Harg, !with_reportID_zero.
    split; [done|]. events_of_both.
    by destruct (bool_decide (reportType = 2)).
  - erewrite (run_hidlib_id _ _ _ _ w1) by side_resend Harg.
    cbn [fst argBuffer]. rewrite Harg, with_reportID_twice, length_with_reportID.
    split; [done|]. events_of_both.
    by destruct (bool_decide (reportType = 2)),
         (bool_decide (reportID = 17)).
Qed.

(** X12: sending again the array as the first call left it, with the same
    arguments, changes nothing further in it and hands the transport the
    same bytes as the first time: writing the reportID into the first
    byte is idempotent. *)
Theorem X12_resending_sends_the_same_bytes
    deviceIndex device reportType reportID w :
  size_in_range w -> scratch_ok w -> type_accepted reportType ->
  device_found deviceIndex device ->
  let r1 := PSYCHHIDSetReport deviceIndex reportType reportID w in
  let r2 := PSYCHHIDSetReport deviceIndex reportType reportID r1.1 in
  argBuffer r2.1 = argBuffer r1.1 /\
  transmissions (new_events r1.1 r2.1) = transmissions (new_events w r1.1).
Proof.
  intros Hsize Hscr Hty Hdev r1 r2.
  destruct (state_after_call deviceIndex device reportType reportID w)
    as [Hscr1 Harg]; try done. fold r1 in Hscr1, Harg.
  destruct (resend_core deviceIndex device reportType reportID w r1.1)
    as [Hbuf Htx]; done.
Qed.

(** X13: for a report whose number of bytes an [int] holds, the size
    checks do what they are there for: no byte stops the call with
    EmptyReportError and more than MAXREPORTSIZE bytes stop it with
    SizeError, in both cases with nothing changed and nothing observed; a
    report of exactly MAXREPORTSIZE bytes gets past both checks (and the
    call returns when the type is accepted and the device and its
    interface are there), while one of MAXREPORTSIZE+1 bytes is stopped. *)
Theorem X13_size_checks_for_int_sized_reports
    deviceIndex reportType reportID w :
  Z.of_nat (length (argBuffer w)) <= INT_MAX ->
  let r := PSYCHHIDSetReport deviceIndex reportType reportID w in
  let len := length (argBuffer w) in
  (len = 0%nat -> r = (w, Exited EmptyReportError)) /\
  ((len > MAXREPORTSIZE)%nat -> r = (w, Exited SizeError)) /\
  (len = S MAXREPORTSIZE -> r = (w, Exited SizeError)) /\
  (len = MAXREPORTSIZE -> (1 <= MAXREPORTSIZE)%nat ->
   r.2 <> Exited SizeError /\ r.2 <> Exited EmptyReportError /\
   (forall device,
      type_accepted reportType -> device_found deviceIndex device ->
      scratch_ok w ->
      (PSYCH_SYSTEM = PSYCH_OSX -> reportType <> 0 ->
       PsychHIDGetDeviceInterfacePtrFromIndex deviceIndex <> NULL) ->
      exists outErr, r.2 = Returned outErr)).
Proof.
  intros Hint r len. subst r len. split; [|split; [|split]].
  - apply run_empty.
  - intros H. by apply run_too_large.
  - intros H. apply run_too_large; lia.
  - intros Hlen Hmax.
    assert (size_in_range w) as Hsize by (unfold size_in_range; lia).
    destruct (size_in_range_passes w Hsize) as (Hp & Hrs & Hk).
    split; [|split].
    + all_paths deviceIndex reportType reportID w; cbn [snd];
        first [discriminate | lia].
    + all_paths deviceIndex reportType reportID w; cbn [snd];
        first [discriminate | lia].
    + intros device Hty Hdev Hscr Hif.
      pose proof (scratch_fits w Hsize Hscr).
      by_branch device Hty; cbn [snd]; eauto.
      exfalso. apply Hif; (done || lia).
Qed.

End Properties.

(** * The properties on the mock configuration

    Each property above is applied here to one concrete call. *)

Ltac mock_side :=
  first
    [ reflexivity
    | discriminate
    | split; reflexivity
    | unfold size_in_range, type_accepted, INT_MAX; simpl; lia ].

(** The specification's scenario: feature report, reportID 5, on
    [0x00,0x11,0x22]. *)
Lemma C1_witness :
  let report := [Byte.x00; Byte.x11; Byte.x22] in
  let w := Mock.world PSYCH_LINUX report in
  let w' := (Mock.run PSYCH_LINUX 0 0 1 3 5 report).1 in
  (exists b, argBuffer w' !! 0%nat = Some b /\ int_of_uchar b = 5) /\
  length (argBuffer w') = 3%nat /\
  (forall i : nat, (1 <= i)%nat -> argBuffer w' !! i = report !! i) /\
  transmissions (new_events w w') =
    [HidSendFeatureReport 7%N [Byte.x05; Byte.x11; Byte.x22] 3].
Proof.
  exact (@C1_reportID_written_in_place (Mock.build PSYCH_LINUX)
           (Mock.collaborators PSYCH_LINUX 0 0) 1 {| interface := 7%N |} 3 5
           (Mock.world PSYCH_LINUX [Byte.x00; Byte.x11; Byte.x22])
           ltac:(lia) ltac:(mock_side) ltac:(mock_side) ltac:(mock_side)).
Defined.

(** The specification's scenario: output report, reportID 0, on
    [0xAA,0xBB]. *)
Lemma C2_witness :
  let report := [Byte.xaa; Byte.xbb] in
  let w := Mock.world PSYCH_LINUX report in
  let w' := (Mock.run PSYCH_LINUX 0 0 1 2 0 report).1 in
  transmissions (new_events w w') =
    [HidWrite 7%N [Byte.x00; Byte.xaa; Byte.xbb] 3] /\
  length [Byte.x00; Byte.xaa; Byte.xbb] = 3%nat /\
  argBuffer w' = report.
Proof.
  exact (@C2_zero_reportID_is_framed (Mock.build PSYCH_LINUX)
           (Mock.collaborators PSYCH_LINUX 0 0) 1 {| interface := 7%N |} 2
           (Mock.world PSYCH_LINUX [Byte.xaa; Byte.xbb])
           ltac:(mock_side) ltac:(mock_side) ltac:(mock_side)
           ltac:(mock_side) ltac:(mock_side)).
Defined.

(** An echo call with reportID 0x11 gets past validation and captures no
    timestamp. *)
Lemma C3_counterexample_echo :
  let w := Mock.world PSYCH_LINUX [Byte.x00] in
  let r := Mock.run PSYCH_LINUX 42 0 1 0 17 [Byte.x00] in
  size_in_range w /\ type_accepted 0 /\
  r.2 = Returned {| n := 0; name := ""; description := "" |} /\
  captures (new_events w r.1) <> 1%nat /\
  AInScanStart r.1 = AInScanStart w.
Proof.
  split; [mock_side|]. split; [mock_side|]. split; [reflexivity|].
  split; [|reflexivity]. vm_compute. discriminate.
Defined.

(** A failing feature report with reportID 0x11 on OSX: one capture. *)
Lemma C3_witness :
  let w := Mock.world PSYCH_OSX [Byte.x00; Byte.x01] in
  let w' := (Mock.run PSYCH_OSX 42 (-5) 1 3 17 [Byte.x00; Byte.x01]).1 in
  captures (new_events w w') = 1%nat /\ AInScanStart w' = 42.
Proof.
  apply (@C3_timestamp_once_when_transport_reached (Mock.build PSYCH_OSX)
           (Mock.collaborators PSYCH_OSX 42 (-5)) 1 {| interface := 7%N |} 3 17
           (Mock.world PSYCH_OSX [Byte.x00; Byte.x01])
           ltac:(mock_side) ltac:(mock_side) ltac:(mock_side)
           ltac:(mock_side)); mock_side.
Defined.

(** With MAXREPORTSIZE = 8, a report of 2^32+1 bytes as an output report
    with reportID 0: the call returns, and hid_write was handed two bytes. *)
Lemma C4_witness :
  let w := Mock.world PSYCH_LINUX Bench.oversize_report in
  let r := @PSYCHHIDSetReport (Mock.build PSYCH_LINUX)
             (Mock.collaborators PSYCH_LINUX 0 0) 1 2 0 w in
  reportSize_of w = 1 /\
  r.2 <> Exited SizeError /\
  (exists outErr, r.2 = Returned outErr) /\
  transmissions (new_events w r.1) =
    [HidWrite (interface {| interface := 7%N |})
       (Byte.x00 :: take 1 (argBuffer w)) 2].
Proof.
  exact (@C4_oversize_report_passes_size_checks (Mock.build PSYCH_LINUX)
           (Mock.collaborators PSYCH_LINUX 0 0) 1 {| interface := 7%N |}
           (Mock.world PSYCH_LINUX Bench.oversize_report)
           (length_replicate _ _)
           ltac:(cbn [MAXREPORTSIZE Mock.build argBuffer Mock.world];
                 unfold Bench.oversize_report; rewrite length_replicate; lia)
           ltac:(discriminate) ltac:(reflexivity)
           ltac:(split; reflexivity)).
Defined.

(** Input reports (type 1) are refused, and nothing was done. *)
Lemma C5_witness :
  let w := Mock.world PSYCH_LINUX [Byte.x00] in
  Mock.run PSYCH_LINUX 0 0 1 1 5 [Byte.x00] = (w, Exited InvalidTypeError).
Proof.
  destruct (@C5_type_check (Mock.build PSYCH_LINUX)
              (Mock.collaborators PSYCH_LINUX 0 0) 1 1 5
              (Mock.world PSYCH_LINUX [Byte.x00])) as (Hbad & Hstop & _).
  apply Hstop; [apply Hbad; lia | mock_side].
Defined.

(** Echo of reportID 5 on two bytes, on OSX. *)
Lemma C6_witness :
  let w := Mock.world PSYCH_OSX [Byte.x00; Byte.x11] in
  let r := Mock.run PSYCH_OSX 0 0 1 0 5 [Byte.x00; Byte.x11] in
  r.2 = Returned {| n := 0; name := ""; description := "" |} /\
  transmissions (new_events w r.1) = [] /\
  new_events w r.1 =
    [Printf "SetReport(reportType %d, reportID %d, report " [0; 5];
     Printf "%d " [5]; Printf "%d " [17]; Printf ")\n" []] /\
  length (new_events w r.1) = 4%nat /\
  scratchBuffer r.1 = scratchBuffer w /\
  AInScanStart r.1 = AInScanStart w.
Proof.
  exact (@C6_echo_only_prints (Mock.build PSYCH_OSX)
           (Mock.collaborators PSYCH_OSX 0 0) 1 {| interface := 7%N |} 5
           (Mock.world PSYCH_OSX [Byte.x00; Byte.x11])
           ltac:(mock_side) ltac:(mock_side)).
Defined.

(** A write that fails with -1 returns -1; the same call on a transport
    that wrote its 2 bytes returns 0. *)
Lemma C7_witness :
  (Mock.run PSYCH_LINUX 0 (-1) 1 2 5 [Byte.x00; Byte.x11]).2
  = Returned {| n := -1; name := "error"; description := "transfer failed" |}
  /\
  (Mock.run PSYCH_LINUX 0 0 1 2 5 [Byte.x00; Byte.x11]).2
  = Returned {| n := 0; name := ""; description := "" |}.
Proof.
  pose (thm := fun status =>
    @C7_status_normalised (Mock.build PSYCH_LINUX)
      (Mock.collaborators PSYCH_LINUX 0 status) 1 {| interface := 7%N |} 2 5
      (Mock.world PSYCH_LINUX [Byte.x00; Byte.x11])
      ltac:(mock_side) ltac:(mock_side) ltac:(mock_side)
      ltac:(mock_side) ltac:(mock_side)).
  split.
  - exact (proj1 (thm (-1))).
  - exact (proj1 (thm 0)).
Defined.

(** A feature report with reportID 5 on OSX. *)
Lemma C8_witness :
  let w := Mock.world PSYCH_OSX [Byte.x00; Byte.x11] in
  let w' := (Mock.run PSYCH_OSX 0 0 1 3 5 [Byte.x00; Byte.x11]).1 in
  transmissions (new_events w w') =
    [SetReport 7%N 2 5 [Byte.x05; Byte.x11] 2 50] /\
  argBuffer w' = [Byte.x05; Byte.x11] /\
  length (argBuffer w') = 2%nat.
Proof.
  exact (@C8_osx_setReport_once (Mock.build PSYCH_OSX)
           (Mock.collaborators PSYCH_OSX 0 0) 1 {| interface := 7%N |} 3 5
           (Mock.world PSYCH_OSX [Byte.x00; Byte.x11])
           ltac:(mock_side) ltac:(mock_side) ltac:(mock_side)
           ltac:(mock_side) ltac:(mock_side)).
Defined.

(** reportID 256, whose low byte is 0: the first byte becomes 0 and two
    bytes, not three, go to hid_write. *)
Lemma C9_witness :
  let w := Mock.world PSYCH_LINUX [Byte.xaa; Byte.xbb] in
  let r := Mock.run PSYCH_LINUX 0 0 1 2 256 [Byte.xaa; Byte.xbb] in
  argBuffer r.1 = [Byte.x00; Byte.xbb] /\
  (exists b, argBuffer r.1 !! 0%nat = Some b /\ int_of_uchar b = 0) /\
  scratchBuffer r.1 = scratchBuffer w /\
  (PSYCH_LINUX <> PSYCH_OSX -> 2 <> 0 ->
   transmissions (new_events w r.1) =
     [HidWrite 7%N [Byte.x00; Byte.xbb] 2]).
Proof.
  exact (proj2 (@C9_reportID_not_range_checked (Mock.build PSYCH_LINUX)
                  (Mock.collaborators PSYCH_LINUX 0 0) 1
                  {| interface := 7%N |} 2 256
                  (Mock.world PSYCH_LINUX [Byte.xaa; Byte.xbb]))
           ltac:(lia) ltac:(mock_side) ltac:(mock_side) ltac:(mock_side)).
Defined.

(** The largest admitted report, framed: 9 bytes fill the scratch array. *)
Lemma C10_witness :
  let w := Mock.world PSYCH_LINUX (replicate 8 Byte.x01) in
  let r := Mock.run PSYCH_LINUX 0 0 1 2 0 (replicate 8 Byte.x01) in
  r.2 <> Fault /\ scratch_ok r.1.
Proof.
  exact (proj2 (@C10_framing_copy_in_bounds (Mock.build PSYCH_LINUX)
                  (Mock.collaborators PSYCH_LINUX 0 0) 1 2 0
                  (Mock.world PSYCH_LINUX (replicate 8 Byte.x01))
                  ltac:(mock_side))).
Defined.

(** Device index 2 names no device: the array keeps its first byte. *)
Lemma X1_witness :
  let w := Mock.world PSYCH_LINUX [Byte.x00; Byte.x11] in
  let r := Mock.run PSYCH_LINUX 0 0 2 3 5 [Byte.x00; Byte.x11] in
  r.1 = w /\ exists callee, r.2 = Exited (ExitFrom callee).
Proof.
  exact (@X1_failed_lookup_changes_nothing (Mock.build PSYCH_LINUX)
           (Mock.collaborators PSYCH_LINUX 0 0) 2 3 5
           (Mock.world PSYCH_LINUX [Byte.x00; Byte.x11])
           ltac:(mock_side) ltac:(mock_side) ltac:(right; reflexivity)).
Defined.

Lemma X2_witness :
  let w := Mock.world PSYCH_OSX [Byte.x00; Byte.x11] in
  let r := @PSYCHHIDSetReport (Mock.build PSYCH_OSX) (Bench.no_interface 0 0)
             1 3 5 w in
  r.2 = Exited (PrintfExit bad_interface_msg) /\
  new_events w r.1 = [] /\
  AInScanStart r.1 = AInScanStart w /\
  scratchBuffer r.1 = scratchBuffer w /\
  argBuffer r.1 = [Byte.x05; Byte.x11] /\
  (5 <> 0 -> argBuffer r.1 !! 0%nat = Some Byte.x05).
Proof.
  exact (@X2_osx_null_interface_exits_after_ID_write (Mock.build PSYCH_OSX)
           (Bench.no_interface 0 0) 1 {| interface := NULL |} 3 5
           (Mock.world PSYCH_OSX [Byte.x00; Byte.x11])
           ltac:(mock_side) ltac:(mock_side) ltac:(mock_side)
           ltac:(mock_side) ltac:(mock_side)).
Defined.

(** A positive status on OSX comes back as it is. *)
Lemma X3_witness :
  let w := Mock.world PSYCH_OSX [Byte.x00; Byte.x11] in
  let r := Mock.run PSYCH_OSX 0 7 1 3 5 [Byte.x00; Byte.x11] in
  r.2 = Returned {| n := 7; name := "error";
                    description := "transfer failed" |} /\
  List.filter is_error_lookup (new_events w r.1) = [HIDErrors NULL 7].
Proof.
  exact (@X3_osx_status_passed_on_raw (Mock.build PSYCH_OSX)
           (Mock.collaborators PSYCH_OSX 0 7) 1 {| interface := 7%N |} 3 5
           (Mock.world PSYCH_OSX [Byte.x00; Byte.x11])
           ltac:(mock_side) ltac:(mock_side) ltac:(mock_side)
           ltac:(mock_side) ltac:(mock_side)).
Defined.

Lemma X4_witness :
  let w := Mock.world PSYCH_LINUX [Byte.x00; Byte.x01] in
  let r := Mock.run PSYCH_LINUX 42 0 1 2 17 [Byte.x00; Byte.x01] in
  exists tx dev outErr,
    is_transport tx = true /\
    r.2 = Returned outErr /\
    new_events w r.1 = [tx; GetPrecisionTimerSeconds; HIDErrors dev (n outErr)].
Proof.
  exact (@X4_transport_then_timestamp_then_lookup (Mock.build PSYCH_LINUX)
           (Mock.collaborators PSYCH_LINUX 42 0) 1 {| interface := 7%N |} 2 17
           (Mock.world PSYCH_LINUX [Byte.x00; Byte.x01])
           ltac:(mock_side) ltac:(mock_side) ltac:(mock_side)
           ltac:(mock_side) ltac:(intros; discriminate)).
Defined.

Lemma X5_witness :
  let report := [Byte.xaa; Byte.xbb; Byte.xcc] in
  let r := Mock.run PSYCH_OSX 0 0 1 3 (-1) report in
  argBuffer r.1 = [Byte.xff; Byte.xbb; Byte.xcc] /\
  exists b, argBuffer r.1 !! 0%nat = Some b /\ int_of_uchar b = 255.
Proof.
  split; [reflexivity|].
  apply (@X5_only_the_first_byte_is_ever_written (Mock.build PSYCH_OSX)
           (Mock.collaborators PSYCH_OSX 0 0) 1 3 (-1)
           (Mock.world PSYCH_OSX [Byte.xaa; Byte.xbb; Byte.xcc]));
    discriminate.
Defined.

Lemma X6_witness :
  let w := Mock.world PSYCH_LINUX (replicate 8 Byte.x01) in
  let r := Mock.run PSYCH_LINUX 0 0 1 2 0 (replicate 8 Byte.x01) in
  (length (transmissions (new_events w r.1)) <= 1)%nat.
Proof.
  exact (proj1 (@X6_at_most_one_bounded_transmission (Mock.build PSYCH_LINUX)
                  (Mock.collaborators PSYCH_LINUX 0 0) 1 2 0
                  (Mock.world PSYCH_LINUX (replicate 8 Byte.x01)))).
Defined.

(** A one-byte report framed into a scratch array that held 0xff bytes:
    bytes 2 and up are still 0xff. *)
Lemma X7_witness :
  let w := Bench.used_world PSYCH_LINUX [Byte.xaa] in
  let r := @PSYCHHIDSetReport (Mock.build PSYCH_LINUX)
             (Mock.collaborators PSYCH_LINUX 0 0) 1 2 0 w in
  scratchBuffer r.1 !! 5%nat = Some Byte.xff.
Proof.
  exact (proj2 (@X7_scratch_written_only_by_framing (Mock.build PSYCH_LINUX)
                  (Mock.collaborators PSYCH_LINUX 0 0) 1 2 0
                  (Bench.used_world PSYCH_LINUX [Byte.xaa]))
           5%nat ltac:(simpl; lia)).
Defined.

Lemma X8_witness :
  let w := Mock.world PSYCH_LINUX [Byte.x00] in
  let r := Mock.run PSYCH_LINUX 42 0 1 0 17 [Byte.x00] in
  (captures (new_events w r.1) <= 1)%nat.
Proof.
  exact (proj1 (@X8_AInScanStart_changes_only_with_0x11
                  (Mock.build PSYCH_LINUX)
                  (Mock.collaborators PSYCH_LINUX 42 0) 1 0 17
                  (Mock.world PSYCH_LINUX [Byte.x00]))).
Defined.

(** The same framed call in a fresh state and in a used one. *)
Lemma X9_witness :
  let w := Mock.world PSYCH_LINUX [Byte.xaa; Byte.xbb] in
  let w' := Bench.used_world PSYCH_LINUX [Byte.xaa; Byte.xbb] in
  let r := Mock.run PSYCH_LINUX 0 0 1 2 0 [Byte.xaa; Byte.xbb] in
  let r' := @PSYCHHIDSetReport (Mock.build PSYCH_LINUX)
              (Mock.collaborators PSYCH_LINUX 0 0) 1 2 0 w' in
  r'.2 = r.2 /\
  new_events w' r'.1 = new_events w r.1 /\
  argBuffer r'.1 = argBuffer r.1.
Proof.
  exact (@X9_call_independent_of_scratch_contents (Mock.build PSYCH_LINUX)
           (Mock.collaborators PSYCH_LINUX 0 0) 1 2 0
           (Mock.world PSYCH_LINUX [Byte.xaa; Byte.xbb])
           (Bench.used_world PSYCH_LINUX [Byte.xaa; Byte.xbb])
           ltac:(mock_side) ltac:(mock_side) ltac:(mock_side)).
Defined.

(** The largest report, then an empty one, then a short one. *)
Lemma X10_witness :
  let r := @session (Mock.build PSYCH_LINUX)
             (Mock.collaborators PSYCH_LINUX 0 0) Bench.calls
             (Mock.world PSYCH_LINUX []) in
  scratch_ok r.1 /\
  length r.2 = 3%nat /\
  Forall (fun outcome => outcome <> Fault) r.2.
Proof.
  exact (@X10_session_stays_in_arrays (Mock.build PSYCH_LINUX)
           (Mock.collaborators PSYCH_LINUX 0 0) Bench.calls
           (Mock.world PSYCH_LINUX []) ltac:(mock_side)).
Defined.

(** reportID 17 and reportID 273 put the same bytes on the wire. *)
Lemma X11_witness :
  let w := Mock.world PSYCH_LINUX [Byte.x00; Byte.x01] in
  let r := Mock.run PSYCH_LINUX 42 0 1 2 17 [Byte.x00; Byte.x01] in
  let r' := Mock.run PSYCH_LINUX 42 0 1 2 273 [Byte.x00; Byte.x01] in
  argBuffer r'.1 = argBuffer r.1 /\
  transmissions (new_events w r'.1) = transmissions (new_events w r.1).
Proof.
  exact (@X11_only_low_byte_of_reportID_is_sent (Mock.build PSYCH_LINUX)
           (Mock.collaborators PSYCH_LINUX 42 0) 1 {| interface := 7%N |}
           2 17 273 (Mock.world PSYCH_LINUX [Byte.x00; Byte.x01])
           ltac:(mock_side) ltac:(mock_side) ltac:(mock_side)
           ltac:(mock_side) ltac:(lia) ltac:(lia) ltac:(reflexivity)).
Defined.

Lemma X12_witness :
  let w := Mock.world PSYCH_LINUX [Byte.x00; Byte.x01] in
  let r1 := Mock.run PSYCH_LINUX 0 0 1 3 5 [Byte.x00; Byte.x01] in
  let r2 := @PSYCHHIDSetReport (Mock.build PSYCH_LINUX)
              (Mock.collaborators PSYCH_LINUX 0 0) 1 3 5 r1.1 in
  argBuffer r2.1 = argBuffer r1.1 /\
  transmissions (new_events r1.1 r2.1) = transmissions (new_events w r1.1).
Proof.
  exact (@X12_resending_sends_the_same_bytes (Mock.build PSYCH_LINUX)
           (Mock.collaborators PSYCH_LINUX 0 0) 1 {| interface := 7%N |} 3 5
           (Mock.world PSYCH_LINUX [Byte.x00; Byte.x01])
           ltac:(mock_side) ltac:(mock_side) ltac:(mock_side)
           ltac:(mock_side)).
Defined.

(** With MAXREPORTSIZE = 8: no byte, nine bytes, eight bytes. *)
Lemma X13_witness :
  let run := Mock.run PSYCH_LINUX 0 0 1 2 0 in
  run [] = (Mock.world PSYCH_LINUX [], Exited EmptyReportError) /\
  run (replicate 9 Byte.x01)
  = (Mock.world PSYCH_LINUX (replicate 9 Byte.x01), Exited SizeError) /\
  exists outErr, (run (replicate 8 Byte.x01)).2 = Returned outErr.
Proof.
  pose (thm := fun report Hint =>
    @X13_size_checks_for_int_sized_reports (Mock.build PSYCH_LINUX)
      (Mock.collaborators PSYCH_LINUX 0 0) 1 2 0
      (Mock.world PSYCH_LINUX report) Hint).
  assert (forall k : nat, (k <= 9)%nat -> Z.of_nat k <= INT_MAX) as Hint
    by (unfold INT_MAX; lia).
  split; [|split].
  - apply (proj1 (thm [] (Hint 0%nat ltac:(lia)))). reflexivity.
  - apply (proj1 (proj2 (proj2 (thm (replicate 9 Byte.x01)
                                   (Hint 9%nat ltac:(lia)))))).
    reflexivity.
  - destruct (thm (replicate 8 Byte.x01) (Hint 8%nat ltac:(lia)))
      as (_ & _ & _ & H).
    apply (H ltac:(reflexivity) ltac:(simpl; lia)) with {| interface := 7%N |};
      mock_side.
Defined.
